(** * Employee management: the request handlers of [employees/views.py]

    A shallow embedding of the seven view functions and of the part of the
    platform they call into (object lookup, save, delete, flash messages,
    login), followed by the properties of the handlers.

    Tables are lists of rows in insertion order.  A handler is a function
    from a [World] (database, session, flash messages) to a result and a new
    [World]; an exception keeps the writes made before it, as the handlers
    run without an enclosing transaction. *)

From Stdlib Require Import List String Ascii ZArith Bool Lia.
Import ListNotations.
Open Scope string_scope.
Open Scope list_scope.
Open Scope Z_scope.

(** ** Rows *)

Record date := mkDate { year : Z; month : Z; day : Z }.

(** [django.contrib.auth.models.User], the identity store. *)
Module User.
Record t := mk {
  id : Z;
  username : string;
  first_name : string;
  last_name : string;
  email : string;
  password : string;
  is_active : bool
}.
End User.

(** Modelled from the spec: [models.py] is not among the sources.  Section 3
    gives the attributes: a Performance holds review date, rating and
    comments and is created empty. *)
Module Performance.
Record t := mk {
  id : Z;
  review_date : option date;
  rating : option Z;
  comments : option string
}.
Definition empty (i : Z) : t := mk i None None None.
End Performance.

(** Modelled from the spec: [models.py] is not among the sources.  A Job
    Details row holds role, department and a link to a Performance; the
    handlers test the link for [None], so it is optional here. *)
Module JobDetails.
Record t := mk {
  id : Z;
  role : string;
  department : string;
  performance : option Z
}.
End JobDetails.

(** Modelled from the spec: [models.py] is not among the sources.  A Personal
    Details row holds the name, the mirror of the account's username, email
    and password, and the link to its Job Details. *)
Module PersonalDetails.
Record t := mk {
  id : Z;
  first_name : string;
  last_name : string;
  username : string;
  email : string;
  password : string;
  job_details : Z
}.
End PersonalDetails.

(** ** Database, session, messages *)

Record DB := mkDB {
  users : list User.t;
  personal_details : list PersonalDetails.t;
  job_details : list JobDetails.t;
  performances : list Performance.t
}.

Record Session := mkSession {
  auth_user_id : option Z;
  auth_user_hash : string
}.

Inductive level := SUCCESS | ERROR.

Record Message := mkMessage { msg_level : level; msg_text : string }.

Record World := mkWorld {
  db : DB;
  session : Session;
  flash : list Message
}.

(** ** Exceptions and the handler monad *)

Inductive exn :=
| Http404
| DoesNotExist
| MultipleObjectsReturned
| IntegrityError.

Inductive result (A : Type) :=
| Ok (a : A)
| Raise (e : exn).
Arguments Ok {A} a.
Arguments Raise {A} e.

Definition M (A : Type) : Type := World -> result A * World.

Definition ret {A} (a : A) : M A := fun w => (Ok a, w).

Definition bind {A B} (m : M A) (f : A -> M B) : M B :=
  fun w =>
    match m w with
    | (Ok a, w') => f a w'
    | (Raise e, w') => (Raise e, w')
    end.

Declare Scope handler_scope.
Delimit Scope handler_scope with handler.
Notation "x <- m ;; k" := (bind m (fun x => k))
  (at level 100, m at next level, right associativity) : handler_scope.
Notation "m ;;; k" := (bind m (fun _ => k))
  (at level 100, right associativity) : handler_scope.

(** A read of the database: the query is a pure function of the tables. *)
Definition query {A} (q : DB -> result A) : M A := fun w => (q (db w), w).

(** A write of the database that cannot fail. *)
Definition execute (f : DB -> DB) : M unit :=
  fun w => (Ok tt, mkWorld (f (db w)) (session w) (flash w)).

(** A write of the database that may raise, leaving the tables as they are. *)
Definition execute_or_raise (f : DB -> result DB) : M unit :=
  fun w =>
    match f (db w) with
    | Ok d => (Ok tt, mkWorld d (session w) (flash w))
    | Raise e => (Raise e, w)
    end.

(** ** The object manager: [get], [get_object_or_404], [save], [create],
    [delete] *)

Section Manager.
Context {R : Type}.
Variable pk : R -> Z.

(** [QuerySet.get]: exactly one row, or an exception. *)
Definition get (rows : list R) (p : R -> bool) : result R :=
  match filter p rows with
  | [] => Raise DoesNotExist
  | [r] => Ok r
  | _ :: _ :: _ => Raise MultipleObjectsReturned
  end.

Definition get_object_or_404 (rows : list R) (p : R -> bool) : result R :=
  match get rows p with
  | Raise DoesNotExist => Raise Http404
  | r => r
  end.

(** [Model.save] of an instance that has a primary key: UPDATE, and INSERT
    when no row was updated. *)
Definition save (r : R) (rows : list R) : list R :=
  if existsb (fun x => pk x =? pk r) rows
  then map (fun x => if pk x =? pk r then r else x) rows
  else rows ++ [r].

(** The key the database gives the next inserted row. *)
Definition next_id (rows : list R) : Z :=
  1 + fold_right Z.max 0 (map pk rows).

(** [Model.delete]: DELETE of the rows with the instance's key. *)
Definition delete (k : Z) (rows : list R) : list R :=
  filter (fun x => negb (pk x =? k)) rows.
End Manager.

(** Access to a foreign-key attribute: the related row is fetched by key. *)
Definition related_job_details (d : DB) (p : PersonalDetails.t)
  : result JobDetails.t :=
  get (job_details d)
      (fun j => JobDetails.id j =? PersonalDetails.job_details p).

Definition related_performance (d : DB) (j : JobDetails.t)
  : result (option Performance.t) :=
  match JobDetails.performance j with
  | None => Ok None
  | Some k =>
      match get (performances d) (fun x => Performance.id x =? k) with
      | Ok x => Ok (Some x)
      | Raise e => Raise e
      end
  end.


(** [User.save]: the username column is unique, so a second account with the
    same username is refused by the database. *)
Definition username_taken (d : DB) (name : string) (self : option Z) : bool :=
  existsb (fun x => String.eqb (User.username x) name
                    && match self with
                       | Some k => negb (User.id x =? k)
                       | None => true
                       end)
          (users d).

Definition save_user (u : User.t) (d : DB) : result DB :=
  if username_taken d (User.username u) (Some (User.id u))
  then Raise IntegrityError
  else Ok (mkDB (save User.id u (users d)) (personal_details d)
                (job_details d) (performances d)).

(** [User.save] of an instance without a key: INSERT under the next key. *)
Definition insert_user (unsaved : Z -> User.t) : M User.t :=
  fun w =>
    let d := db w in
    let u := unsaved (next_id User.id (users d)) in
    if username_taken d (User.username u) None
    then (Raise IntegrityError, w)
    else (Ok u, mkWorld (mkDB (users d ++ [u]) (personal_details d)
                              (job_details d) (performances d))
                        (session w) (flash w)).

Definition delete_user (u : User.t) (d : DB) : DB :=
  mkDB (delete User.id (User.id u) (users d)) (personal_details d)
       (job_details d) (performances d).

Definition save_personal_details (p : PersonalDetails.t) (d : DB) : DB :=
  mkDB (users d) (save PersonalDetails.id p (personal_details d))
       (job_details d) (performances d).

Definition save_job_details (j : JobDetails.t) (d : DB) : DB :=
  mkDB (users d) (personal_details d) (save JobDetails.id j (job_details d))
       (performances d).

Definition save_performance (x : Performance.t) (d : DB) : DB :=
  mkDB (users d) (personal_details d) (job_details d)
       (save Performance.id x (performances d)).

(** [Performance.objects.create()] *)
Definition create_performance : M Performance.t :=
  fun w =>
    let d := db w in
    let x := Performance.empty (next_id Performance.id (performances d)) in
    (Ok x, mkWorld (mkDB (users d) (personal_details d) (job_details d)
                         (performances d ++ [x]))
                   (session w) (flash w)).

(** Modelled from the spec: [models.py] is not among the sources.  Job
    Details is created empty at registration: no role, no department. *)
Definition create_job_details (performance : Performance.t) : M JobDetails.t :=
  fun w =>
    let d := db w in
    let j := JobDetails.mk (next_id JobDetails.id (job_details d)) "" ""
                           (Some (Performance.id performance)) in
    (Ok j, mkWorld (mkDB (users d) (personal_details d) (job_details d ++ [j])
                         (performances d))
                   (session w) (flash w)).

(** [PersonalDetails.objects.create(...)] *)
Definition create_personal_details
  (first_name last_name username email password : string)
  (job_details_model : JobDetails.t) : M PersonalDetails.t :=
  fun w =>
    let d := db w in
    let p := PersonalDetails.mk
               (next_id PersonalDetails.id (personal_details d))
               first_name last_name username email password
               (JobDetails.id job_details_model) in
    (Ok p, mkWorld (mkDB (users d) (personal_details d ++ [p]) (job_details d)
                         (performances d))
                   (session w) (flash w)).

(** Modelled from the spec: [models.py] is not among the sources.  Section 3:
    deleting Personal Details deletes its Job Details and that Job Details'
    Performance (cascade). *)
Definition cascade_performance_keys (d : DB) (p : PersonalDetails.t)
  : list Z :=
  flat_map (fun j => match JobDetails.performance j with
                     | Some k => [k]
                     | None => []
                     end)
           (filter (fun j => JobDetails.id j =? PersonalDetails.job_details p)
                   (job_details d)).

Definition delete_personal_details (p : PersonalDetails.t) (d : DB) : DB :=
  mkDB (users d)
       (delete PersonalDetails.id (PersonalDetails.id p) (personal_details d))
       (delete JobDetails.id (PersonalDetails.job_details p) (job_details d))
       (filter (fun x => negb (existsb (Z.eqb (Performance.id x))
                                       (cascade_performance_keys d p)))
               (performances d)).

(** ** Strings: truthiness and [icontains] *)

Definition truthy (s : string) : bool := negb (String.eqb s "").

Definition lower_ascii (c : ascii) : ascii :=
  let n := nat_of_ascii c in
  if (Nat.leb 65 n && Nat.leb n 90)%bool then ascii_of_nat (n + 32) else c.

Fixpoint lower (s : string) : string :=
  match s with
  | EmptyString => EmptyString
  | String c s' => String (lower_ascii c) (lower s')
  end.

Fixpoint contains (s q : string) : bool :=
  (String.prefix q s
   || match s with
      | EmptyString => false
      | String _ s' => contains s' q
      end)%bool.

(** The [__icontains] lookup: substring test after case folding (ASCII
    letters, as the database's LIKE does). *)
Definition icontains (field q : string) : bool :=
  contains (lower field) (lower q).

(** ** Requests and responses *)

Definition QueryDict := list (string * string).

(** [dict.get] and [QueryDict.get]: the last value given for the key. *)
Fixpoint dict_get (d : QueryDict) (k : string) (default : string) : string :=
  match d with
  | [] => default
  | (k', v) :: d' => dict_get d' k (if String.eqb k' k then v else default)
  end.

Record Request := mkRequest {
  method : string;
  user : option User.t;
  GET : QueryDict;
  POST : QueryDict
}.

Module RegisterData.
Record t := mk {
  first_name : string;
  last_name : string;
  username : string;
  email : string;
  password : string
}.
End RegisterData.

Module ProfileData.
Record t := mk {
  first_name : string;
  last_name : string;
  username : string;
  email : string;
  new_password : string
}.
End ProfileData.

Module EmployeeData.
Record t := mk {
  role : string;
  department : string;
  review_date : option date;
  rating : option Z;
  comments : option string
}.
End EmployeeData.

(** A form as the template receives it: unbound, showing its instance, or
    bound to submitted data, with the cleaned data when it validated. *)
Inductive Form (I D : Type) :=
| Unbound (instance : I)
| Bound (instance : I) (data : QueryDict) (cleaned : option D).
Arguments Unbound {I D} instance.
Arguments Bound {I D} instance data cleaned.

Record PerformanceInitial := mkInitial {
  initial_review_date : option date;
  initial_rating : option Z;
  initial_comments : option string
}.

Inductive TemplateContext :=
| NoContext
| RegisterContext (form : Form unit RegisterData.t)
| HomeContext (job : JobDetails.t) (first_name : string)
| ProfileContext (personal_details : PersonalDetails.t)
                 (job_details : JobDetails.t)
                 (performance : option Performance.t)
| EditProfileContext (form : Form PersonalDetails.t ProfileData.t) (id : Z)
| ListContext (employees : list PersonalDetails.t) (self_id : Z)
| EditEmployeeContext
    (form : Form (JobDetails.t * PerformanceInitial) EmployeeData.t)
    (first_name last_name : string) (emp_id : Z)
| ConfirmDeleteContext (full_name department : string).

Inductive Response :=
| Redirect (to : string)
| Render (template : string) (context : TemplateContext).

(** ** Flash messages *)

Definition add_message (l : level) (text : string) : M unit :=
  fun w => (Ok tt, mkWorld (db w) (session w) (flash w ++ [mkMessage l text])).

Definition messages_success := add_message SUCCESS.
Definition messages_error := add_message ERROR.

(** Modelled from the spec: [utils.clear_messages] is not among the sources.
    Section 6: the flash messages are cleared at the start of the update and
    delete handlers, before new messages are added. *)
Definition clear_messages : M unit :=
  fun w => (Ok tt, mkWorld (db w) (session w) []).

(** ** Lookup helpers *)

(** Modelled from the spec: [utils.py] is not among the sources.  Section 2:
    the lookup helpers map a username to its Personal Details, Job Details
    and Performance records; a lookup that finds no row is a not-found
    error (section 7). *)
Definition get_personal_details_by_username (d : DB) (name : string)
  : result PersonalDetails.t :=
  get_object_or_404 (personal_details d)
                    (fun p => String.eqb (PersonalDetails.username p) name).

Definition get_job_details_by_username (d : DB) (name : string)
  : result JobDetails.t :=
  match get_personal_details_by_username d name with
  | Ok p => related_job_details d p
  | Raise e => Raise e
  end.

Definition get_performance_by_username (d : DB) (name : string)
  : result (option Performance.t) :=
  match get_job_details_by_username d name with
  | Ok j => related_performance d j
  | Raise e => Raise e
  end.

(** ** The platform's authentication *)

(** [login(request, user)]: the session records the user's key and the
    fingerprint of the user's password hash. *)
Definition login (session_auth_hash : string -> string) (u : User.t) : M unit :=
  fun w =>
    (Ok tt, mkWorld (db w)
                    (mkSession (Some (User.id u))
                               (session_auth_hash (User.password u)))
                    (flash w)).

(** A session is valid for the next request when its user exists, is active,
    and the recorded fingerprint is that of the stored password hash. *)
Definition session_valid (session_auth_hash : string -> string)
  (d : DB) (s : Session) : bool :=
  match auth_user_id s with
  | None => false
  | Some k =>
      match get (users d) (fun u => User.id u =? k) with
      | Ok u => User.is_active u
                && String.eqb (auth_user_hash s)
                              (session_auth_hash (User.password u))
      | Raise _ => false
      end
  end.

(** The default authentication backend: the account of that username, when
    the password checks against its hash and the account is active.  The
    username column is unique, so the lookup finds one row or none. *)
Definition ModelBackend_authenticate
  (check_password : string -> string -> bool)
  (d : DB) (username password : string) : option User.t :=
  match get (users d) (fun u => String.eqb (User.username u) username) with
  | Ok u => if check_password password (User.password u) && User.is_active u
            then Some u else None
  | Raise _ => None
  end.

(** ** The handlers *)

Open Scope handler_scope.

Section Views.

(** Platform services and declarations that are not in [views.py]. *)
Variable make_password : string -> string.
Variable session_auth_hash : string -> string.
Variable authenticate : DB -> string -> string -> option User.t.
Variable LOGIN_URL : string.
Variable has_manager_role : DB -> User.t -> bool.
Variable manager_denied : Response.
Variable DEPARTMENT_CHOICES : list (string * string).
Variable RegisterForm_clean_fields : QueryDict -> option RegisterData.t.
Variable EditProfileForm_clean :
  DB -> PersonalDetails.t -> QueryDict -> option ProfileData.t.
Variable EditEmployeeForm_clean :
  DB -> JobDetails.t -> QueryDict -> option EmployeeData.t.

(** [@login_required]: an anonymous request is sent to the login page. *)
Definition login_required (request : Request) (view : User.t -> M Response)
  : M Response :=
  match user request with
  | Some u => view u
  | None => ret (Redirect LOGIN_URL)
  end.

(** Modelled from the spec: [decorators.manager_required] is not among the
    sources.  Section 7: a missing manager role short-circuits before the
    handler body runs. *)
Definition manager_required (current_user : User.t) (view : M Response)
  : M Response :=
  fun w =>
    if has_manager_role (db w) current_user then view w
    else (Ok manager_denied, w).

(** Modelled from the spec: [forms.RegisterForm] is not among the sources.
    Section 4.1: the form validates the uniqueness of username and email;
    the field and password rules are the platform's. *)
Definition RegisterForm_clean (d : DB) (data : QueryDict)
  : option RegisterData.t :=
  match RegisterForm_clean_fields data with
  | Some cd =>
      if username_taken d (RegisterData.username cd) None
         || existsb (fun x => String.eqb (User.email x) (RegisterData.email cd))
                    (users d)
      then None else Some cd
  | None => None
  end.

(** [form.save(commit=False)] of the registration form: the account to be,
    with its password hashed, awaiting its key. *)
Definition RegisterForm_save (cd : RegisterData.t) (k : Z) : User.t :=
  User.mk k (RegisterData.username cd) (RegisterData.first_name cd)
          (RegisterData.last_name cd) (RegisterData.email cd)
          (make_password (RegisterData.password cd)) true.

(** Modelled from the spec: [forms.EditProfileForm] is not among the
    sources.  Section 4.4: saving the form persists the Personal Details
    fields; the handler reads username and email from the same data. *)
Definition EditProfileForm_save (cd : ProfileData.t) (p : PersonalDetails.t)
  : PersonalDetails.t :=
  PersonalDetails.mk (PersonalDetails.id p)
                     (ProfileData.first_name cd) (ProfileData.last_name cd)
                     (ProfileData.username cd) (ProfileData.email cd)
                     (PersonalDetails.password p)
                     (PersonalDetails.job_details p).

(** Modelled from the spec: [forms.EditEmployeeForm] is not among the
    sources.  Section 4.6: saving the form persists the Job Details fields;
    review date, rating and comments are extra fields of the form. *)
Definition EditEmployeeForm_save (cd : EmployeeData.t) (j : JobDetails.t)
  : JobDetails.t :=
  JobDetails.mk (JobDetails.id j) (EmployeeData.role cd)
                (EmployeeData.department cd) (JobDetails.performance j).

Definition index (request : Request) : M Response :=
  ret (Render "base.html" NoContext).

Definition user_register (request : Request) : M Response :=
  if String.eqb (method request) "POST" then
    cleaned <- query (fun d => Ok (RegisterForm_clean d (POST request))) ;;
    match cleaned with
    | Some cd =>
        user <- insert_user (RegisterForm_save cd) ;;
        performance_model <- create_performance ;;
        job_details_model <- create_job_details performance_model ;;
        _ <- create_personal_details
               (User.first_name user) (User.last_name user)
               (User.username user) (User.email user) (User.password user)
               job_details_model ;;
        messages_success "Registration successful!" ;;;
        ret (Redirect "/")
    | None =>
        messages_error "There was an error with your submission." ;;;
        ret (Render "register/register.html"
                    (RegisterContext (Bound tt (POST request) None)))
    end
  else
    ret (Render "register/register.html" (RegisterContext (Unbound tt))).

Definition home (request : Request) : M Response :=
  login_required request (fun current_user =>
    let username := User.username current_user in
    job_details <- query (fun d => get_job_details_by_username d username) ;;
    personal_details <-
      query (fun d => get_personal_details_by_username d username) ;;
    let first_name := PersonalDetails.first_name personal_details in
    ret (Render "main/home.html" (HomeContext job_details first_name))).

Definition get_profile_data (request : Request) (id : Z) : M Response :=
  login_required request (fun current_user =>
    let username := User.username current_user in
    personal_details <-
      query (fun d => get_personal_details_by_username d username) ;;
    job_details <- query (fun d => get_job_details_by_username d username) ;;
    performance <- query (fun d => get_performance_by_username d username) ;;
    ret (Render "main/profile.html"
                (ProfileContext personal_details job_details performance))).

Definition update_profile (request : Request) (id : Z) : M Response :=
  login_required request (fun user =>
    clear_messages ;;;
    personal_details <-
      query (fun d =>
               get_object_or_404
                 (personal_details d)
                 (fun p => String.eqb (PersonalDetails.username p)
                                      (User.username user))) ;;
    if String.eqb (method request) "POST" then
      cleaned <-
        query (fun d =>
                 Ok (EditProfileForm_clean d personal_details (POST request))) ;;
      match cleaned with
      | Some cd =>
          let personal_details := EditProfileForm_save cd personal_details in
          execute (save_personal_details personal_details) ;;;
          let new_username := ProfileData.username cd in
          let new_email := ProfileData.email cd in
          let new_password := ProfileData.new_password cd in
          let user :=
            User.mk (User.id user) new_username (User.first_name user)
                    (User.last_name user) new_email (User.password user)
                    (User.is_active user) in
          (if truthy new_password then
             let user :=
               User.mk (User.id user) (User.username user)
                       (User.first_name user) (User.last_name user)
                       (User.email user) (make_password new_password)
                       (User.is_active user) in
             execute_or_raise (save_user user) ;;;
             updated_user <-
               query (fun d => Ok (authenticate d new_username new_password)) ;;
             match updated_user with
             | Some updated_user => login session_auth_hash updated_user
             | None => ret tt
             end
           else
             execute_or_raise (save_user user)) ;;;
          messages_success "Update was successful." ;;;
          ret (Render "main/edit-profile.html"
                      (EditProfileContext
                         (Bound personal_details (POST request) (Some cd)) id))
      | None =>
          messages_error "There was an error with your submission." ;;;
          ret (Render "main/edit-profile.html"
                      (EditProfileContext
                         (Bound personal_details (POST request) None) id))
      end
    else
      ret (Render "main/edit-profile.html"
                  (EditProfileContext (Unbound personal_details) id))).

(** A lookup that spans the relation, [job_details__<field>]: the row is
    joined to the Job Details row of its key. *)
Definition job_details__ (d : DB) (f : JobDetails.t -> bool)
  (p : PersonalDetails.t) : bool :=
  existsb (fun j => (JobDetails.id j =? PersonalDetails.job_details p) && f j)
          (job_details d).

Definition employees_list (request : Request) : M Response :=
  login_required request (fun current_user =>
  manager_required current_user (
    let username := User.username current_user in
    job_details <- query (fun d => get_job_details_by_username d username) ;;
    let self_id := JobDetails.id job_details in
    let search_query := dict_get (GET request) "search" "" in
    employees <-
      query (fun d =>
        let employees := personal_details d in
        let employees :=
          if negb (String.eqb (JobDetails.role job_details) "ADM") then
            filter (fun p =>
                      negb (job_details__ d
                              (fun j => String.eqb (JobDetails.role j) "ADM")
                              p))
                   employees
          else employees in
        let employees :=
          if truthy search_query then
            filter (fun p =>
                      icontains (PersonalDetails.first_name p) search_query
                      || icontains (PersonalDetails.last_name p) search_query
                      || job_details__ d
                           (fun j => icontains (JobDetails.department j)
                                               search_query)
                           p)
                   employees
          else employees in
        Ok employees) ;;
    ret (Render "main/list.html" (ListContext employees self_id)))).

Definition update_employee (request : Request) (emp_id : Z) : M Response :=
  login_required request (fun current_user =>
  manager_required current_user (
    clear_messages ;;;
    let username := User.username current_user in
    self_job_details <-
      query (fun d => get_job_details_by_username d username) ;;
    personal_details <-
      query (fun d =>
               get_object_or_404
                 (personal_details d)
                 (fun p => PersonalDetails.job_details p =? emp_id)) ;;
    job_details <-
      query (fun d =>
               get_object_or_404 (job_details d)
                                 (fun j => JobDetails.id j =? emp_id)) ;;
    performance <- query (fun d => related_performance d job_details) ;;
    if String.eqb (JobDetails.role job_details) "ADM"
       && negb (String.eqb (JobDetails.role self_job_details) "ADM")
    then
      messages_error "You cannot update an Admin employee." ;;;
      ret (Redirect "list")
    else
      let render_form form :=
        ret (Render "main/edit-employee.html"
                    (EditEmployeeContext
                       form
                       (PersonalDetails.first_name personal_details)
                       (PersonalDetails.last_name personal_details)
                       emp_id)) in
      let initial :=
        match performance with
        | Some x => mkInitial (Performance.review_date x)
                              (Performance.rating x) (Performance.comments x)
        | None => mkInitial None None None
        end in
      if String.eqb (method request) "POST" then
        cleaned <-
          query (fun d =>
                   Ok (EditEmployeeForm_clean d job_details (POST request))) ;;
        match cleaned with
        | Some cd =>
            let job_details := EditEmployeeForm_save cd job_details in
            execute (save_job_details job_details) ;;;
            match performance with
            | Some performance =>
                let performance :=
                  Performance.mk (Performance.id performance)
                                 (EmployeeData.review_date cd)
                                 (EmployeeData.rating cd)
                                 (EmployeeData.comments cd) in
                execute (save_performance performance)
            | None => ret tt
            end ;;;
            messages_success "Profile updated successfully!" ;;;
            ret (Redirect "list")
        | None =>
            messages_error "There was an error with your submission." ;;;
            render_form (Bound (job_details, mkInitial None None None)
                               (POST request) None)
        end
      else
        render_form (Unbound (job_details, initial)))).

Definition delete_employee (request : Request) (emp_id : Z) : M Response :=
  login_required request (fun current_user =>
  manager_required current_user (
    clear_messages ;;;
    let username := User.username current_user in
    self_job_details <-
      query (fun d => get_job_details_by_username d username) ;;
    personal_details <-
      query (fun d =>
               get_object_or_404
                 (personal_details d)
                 (fun p => PersonalDetails.job_details p =? emp_id)) ;;
    job_details <-
      query (fun d =>
               get_object_or_404 (job_details d)
                                 (fun j => JobDetails.id j =? emp_id)) ;;
    if String.eqb (JobDetails.role job_details) "ADM"
       && negb (String.eqb (JobDetails.role self_job_details) "ADM")
    then
      messages_error "You cannot delete an Admin employee." ;;;
      ret (Redirect "main:list")
    else if String.eqb (method request) "POST" then
      user <-
        query (fun d =>
                 get_object_or_404
                   (users d)
                   (fun u => String.eqb
                               (User.username u)
                               (PersonalDetails.username personal_details))) ;;
      execute (delete_user user) ;;;
      execute (delete_personal_details personal_details) ;;;
      messages_success "Employee deleted successfully." ;;;
      ret (Redirect "main:list")
    else
      let full_name :=
        String.append (PersonalDetails.first_name personal_details)
          (String.append " " (PersonalDetails.last_name personal_details)) in
      let department :=
        dict_get DEPARTMENT_CHOICES (JobDetails.department job_details)
                 (JobDetails.department job_details) in
      ret (Render "main/confirm-delete.html"
                  (ConfirmDeleteContext full_name department)))).

End Views.

(** ** A sample installation

    Three employees: an administrator, a manager and a clerk, with concrete
    platform services, on which the handlers can be run. *)

Module Sample.

Definition make_password (raw : string) : string := String.append "pbkdf2$" raw.

Definition check_password (raw hashed : string) : bool :=
  String.eqb hashed (make_password raw).

Definition session_auth_hash (hashed : string) : string :=
  String.append "hmac$" hashed.

Definition authenticate := ModelBackend_authenticate check_password.

(** A backend that knows none of the local accounts. *)
Definition remote_authenticate (d : DB) (username password : string)
  : option User.t := None.

Definition LOGIN_URL : string := "/login/".

Definition has_manager_role (d : DB) (u : User.t) : bool :=
  match get_job_details_by_username d (User.username u) with
  | Ok j => String.eqb (JobDetails.role j) "ADM"
            || String.eqb (JobDetails.role j) "MGR"
  | Raise _ => false
  end.

Definition manager_denied : Response := Redirect "/home/".

Definition DEPARTMENT_CHOICES : list (string * string) :=
  [("IT", "Information Technology"); ("HR", "Human Resources");
   ("SAL", "Sales")].

Definition RegisterForm_clean_fields (data : QueryDict)
  : option RegisterData.t :=
  if truthy (dict_get data "username" "")
     && String.eqb (dict_get data "password1" "") (dict_get data "password2" "")
  then Some (RegisterData.mk (dict_get data "first_name" "")
                             (dict_get data "last_name" "")
                             (dict_get data "username" "")
                             (dict_get data "email" "")
                             (dict_get data "password1" ""))
  else None.

Definition EditProfileForm_clean (d : DB) (instance : PersonalDetails.t)
  (data : QueryDict) : option ProfileData.t :=
  if truthy (dict_get data "username" "") then
    Some (ProfileData.mk (dict_get data "first_name" "")
                         (dict_get data "last_name" "")
                         (dict_get data "username" "")
                         (dict_get data "email" "")
                         (dict_get data "new_password" ""))
  else None.

Definition EditEmployeeForm_clean (d : DB) (instance : JobDetails.t)
  (data : QueryDict) : option EmployeeData.t :=
  if truthy (dict_get data "role" "") then
    Some (EmployeeData.mk (dict_get data "role" "")
                          (dict_get data "department" "")
                          (Some (mkDate 2024 5 17)) (Some 4)
                          (Some (dict_get data "comments" "")))
  else None.

Definition alice : User.t :=
  User.mk 1 "alice" "Alice" "Archer" "alice@corp.test"
          (make_password "a-secret") true.
Definition bob : User.t :=
  User.mk 2 "bob" "Bob" "Baker" "bob@corp.test" (make_password "b-secret") true.
Definition carol : User.t :=
  User.mk 3 "carol" "Carol" "Cole" "carol@corp.test"
          (make_password "c-secret") true.

Definition alice_details : PersonalDetails.t :=
  PersonalDetails.mk 11 "Alice" "Archer" "alice" "alice@corp.test"
                     (make_password "a-secret") 21.
Definition bob_details : PersonalDetails.t :=
  PersonalDetails.mk 12 "Bob" "Baker" "bob" "bob@corp.test"
                     (make_password "b-secret") 22.
Definition carol_details : PersonalDetails.t :=
  PersonalDetails.mk 13 "Carol" "Cole" "carol" "carol@corp.test"
                     (make_password "c-secret") 23.

Definition alice_job : JobDetails.t := JobDetails.mk 21 "ADM" "IT" (Some 31).
Definition bob_job : JobDetails.t := JobDetails.mk 22 "MGR" "HR" (Some 32).
Definition carol_job : JobDetails.t := JobDetails.mk 23 "EMP" "SAL" (Some 33).

Definition database : DB :=
  mkDB [alice; bob; carol]
       [alice_details; bob_details; carol_details]
       [alice_job; bob_job; carol_job]
       [Performance.empty 31; Performance.empty 32;
        Performance.mk 33 (Some (mkDate 2023 11 2)) (Some 3) (Some "steady")].

Definition session_of (u : User.t) : Session :=
  mkSession (Some (User.id u)) (session_auth_hash (User.password u)).

Definition world_of (u : User.t) : World :=
  mkWorld database (session_of u) [mkMessage SUCCESS "Welcome back."].

Definition get_request (u : User.t) (query_string : QueryDict) : Request :=
  mkRequest "GET" (Some u) query_string [].

Definition post_request (u : User.t) (data : QueryDict) : Request :=
  mkRequest "POST" (Some u) [] data.

End Sample.

(** ** The vocabulary of the specification *)

(** The spec's wording of the search: the query is a case-insensitive
    substring of the field. *)
Definition case_insensitive_substring (q field : string) : Prop :=
  exists pre post,
    lower field = String.append pre (String.append (lower q) post).

(** The rows a caller may see: every row for an administrator, the rows
    whose Job Details role is not "ADM" for the others. *)
Definition visible_to (d : DB) (self_job_details : JobDetails.t)
  (p : PersonalDetails.t) : Prop :=
  In p (personal_details d)
  /\ (JobDetails.role self_job_details <> "ADM" ->
      forall j, In j (job_details d) ->
                JobDetails.id j = PersonalDetails.job_details p ->
                JobDetails.role j <> "ADM").

(** The spec's wording of a match: the query is a case-insensitive substring
    of the first name, of the last name or of the department. *)
Definition search_matches (d : DB) (q : string) (p : PersonalDetails.t)
  : Prop :=
  case_insensitive_substring q (PersonalDetails.first_name p)
  \/ case_insensitive_substring q (PersonalDetails.last_name p)
  \/ exists j, In j (job_details d)
               /\ JobDetails.id j = PersonalDetails.job_details p
               /\ case_insensitive_substring q (JobDetails.department j).

(** A response with the [id] entry of the edit-profile context blanked: the
    entry only echoes the URL parameter back to the template. *)
Definition without_id (r : result Response) : result Response :=
  match r with
  | Ok (Render template (EditProfileContext form _)) =>
      Ok (Render template (EditProfileContext form 0))
  | _ => r
  end.

(** ** Running a handler *)

Ltac run_handler :=
  unfold bind, query, execute, execute_or_raise, clear_messages,
    messages_error, messages_success, add_message, ret;
  cbn [db session flash].

(** * Properties *)

(** ** The object manager *)

Section ManagerFacts.
Context {R : Type}.
Variable pk : R -> Z.

Lemma get_Ok_filter (rows : list R) (p : R -> bool) (r : R) :
  get rows p = Ok r -> filter p rows = [r].
Proof.
  unfold get. destruct (filter p rows) as [|x [|y l]]; intros H;
    try discriminate. now inversion H.
Qed.

Lemma get_object_or_404_Ok (rows : list R) (p : R -> bool) (r : R) :
  get_object_or_404 rows p = Ok r -> filter p rows = [r].
Proof.
  unfold get_object_or_404. intros H. apply get_Ok_filter.
  destruct (get rows p) as [a|[]]; congruence.
Qed.

Lemma filter_singleton (rows : list R) (p : R -> bool) (r : R) :
  filter p rows = [r] -> In r rows /\ p r = true.
Proof.
  intros H. apply filter_In. rewrite H. now left.
Qed.

Lemma filter_singleton_unique (rows : list R) (p : R -> bool) (r x : R) :
  filter p rows = [r] -> In x rows -> p x = true -> x = r.
Proof.
  intros H Hx Hp.
  assert (Hin : In x (filter p rows)) by (apply filter_In; auto).
  rewrite H in Hin. destruct Hin as [E|[]]. now symmetry.
Qed.

Lemma filter_none (rows : list R) (p : R -> bool) :
  (forall x, In x rows -> p x = false) -> filter p rows = [].
Proof.
  induction rows as [|a l IH]; intros H; simpl; [reflexivity|].
  rewrite (H a (or_introl eq_refl)). apply IH. intros x Hx. apply H. now right.
Qed.

Lemma get_object_or_404_none (rows : list R) (p : R -> bool) :
  (forall x, In x rows -> p x = false) ->
  get_object_or_404 rows p = Raise Http404.
Proof.
  intros H. unfold get_object_or_404, get. now rewrite (filter_none _ _ H).
Qed.

Lemma get_none (rows : list R) (p : R -> bool) :
  (forall x, In x rows -> p x = false) -> get rows p = Raise DoesNotExist.
Proof.
  intros H. unfold get. now rewrite (filter_none _ _ H).
Qed.

Lemma in_delete (k : Z) (rows : list R) (x : R) :
  In x (delete pk k rows) <-> In x rows /\ pk x <> k.
Proof.
  unfold delete. rewrite filter_In, negb_true_iff, Z.eqb_neq. tauto.
Qed.

Lemma next_id_above (rows : list R) (x : R) :
  In x rows -> pk x < next_id pk rows.
Proof.
  unfold next_id. induction rows as [|a l IH]; cbn [In map fold_right];
    [tauto|].
  intros [->|H]; [|specialize (IH H)]; lia.
Qed.

Lemma next_id_fresh (rows : list R) :
  ~ In (next_id pk rows) (map pk rows).
Proof.
  intros H. apply in_map_iff in H. destruct H as (x & E & Hx).
  apply next_id_above in Hx. lia.
Qed.

Lemma in_save_same (r : R) (rows : list R) (x : R) :
  In x (save pk r rows) -> pk x = pk r -> x = r.
Proof.
  unfold save. destruct (existsb _ rows) eqn:Ex.
  - rewrite in_map_iff. intros (y & E & _) Hk.
    destruct (pk y =? pk r) eqn:Ey; [congruence|].
    subst x. apply Z.eqb_neq in Ey. contradiction.
  - rewrite in_app_iff. intros [H|[E|[]]] Hk; [|congruence].
    assert (Hex : existsb (fun y => pk y =? pk r) rows = true)
      by (apply existsb_exists; exists x; split;
          [assumption|now apply Z.eqb_eq]).
    congruence.
Qed.

Lemma in_save_self (r : R) (rows : list R) : In r (save pk r rows).
Proof.
  unfold save. destruct (existsb _ rows) eqn:Ex.
  - apply existsb_exists in Ex. destruct Ex as (y & Hy & Ey).
    apply in_map_iff. exists y. now rewrite Ey.
  - apply in_app_iff. right. now left.
Qed.

Lemma in_save_other (r : R) (rows : list R) (x : R) :
  pk x <> pk r -> (In x (save pk r rows) <-> In x rows).
Proof.
  intros Hk. unfold save. destruct (existsb _ rows).
  - rewrite in_map_iff. split.
    + intros (y & E & Hy). destruct (pk y =? pk r); congruence.
    + intros Hx. exists x. apply Z.eqb_neq in Hk. now rewrite Hk.
  - rewrite in_app_iff. split; [|tauto].
    intros [H|[E|[]]]; [assumption|]. subst. contradiction.
Qed.

(** With unique keys, the saved table holds the instance as the only row
    selected by a predicate that holds for it and for no row of another
    key. *)
Lemma filter_save (p : R -> bool) (r : R) (rows : list R) :
  NoDup (map pk rows) ->
  p r = true ->
  (forall x, In x rows -> pk x <> pk r -> p x = false) ->
  filter p (save pk r rows) = [r].
Proof.
  intros Hnd Hr Hother. unfold save.
  destruct (existsb _ rows) eqn:Ex.
  - induction rows as [|a l IH]; [discriminate|].
    cbn [map existsb] in *. inversion Hnd as [|? ? Hna Hnd']; subst.
    destruct (pk a =? pk r) eqn:Ea.
    + apply Z.eqb_eq in Ea. cbn [filter]. rewrite Hr. f_equal.
      apply filter_none. intros x Hx. apply in_map_iff in Hx.
      destruct Hx as (y & E & Hy). subst x.
      destruct (pk y =? pk r) eqn:Ey.
      * apply Z.eqb_eq in Ey. exfalso. apply Hna. apply in_map_iff.
        exists y. split; [congruence|assumption].
      * apply Hother; [now right|now apply Z.eqb_neq].
    + cbn [filter]. rewrite (Hother a (or_introl eq_refl))
        by now apply Z.eqb_neq.
      apply IH; [assumption| |exact Ex].
      intros x Hx. apply Hother. now right.
  - rewrite filter_app. cbn [filter]. rewrite Hr.
    rewrite filter_none; [reflexivity|].
    intros x Hx. apply Hother; [assumption|]. intros E.
    assert (Hex : existsb (fun y => pk y =? pk r) rows = true)
      by (apply existsb_exists; exists x; split;
          [assumption|now apply Z.eqb_eq]).
    congruence.
Qed.

End ManagerFacts.

(** ** Substrings *)

Lemma prefix_append (q s : string) :
  String.prefix q s = true <-> exists post, s = String.append q post.
Proof.
  revert s. induction q as [|a q IH]; intros s.
  - split; [intros _; now exists s|intros _; now destruct s].
  - destruct s as [|b s]; cbn [String.prefix].
    + split; [discriminate|intros (post & E); discriminate].
    + destruct (ascii_dec a b) as [->|Hab].
      * rewrite IH. split; intros (post & E); exists post; cbn in *;
          congruence.
      * split; [discriminate|]. intros (post & E). cbn in E. congruence.
Qed.

Lemma contains_append (s q : string) :
  contains s q = true <->
  exists pre post, s = String.append pre (String.append q post).
Proof.
  induction s as [|c s IH]; cbn [contains]; rewrite orb_true_iff.
  - rewrite prefix_append. split.
    + intros [(post & E)|H]; [|discriminate]. now exists "", post.
    + intros (pre & post & E). left. destruct pre; [|discriminate].
      now exists post.
  - rewrite prefix_append, IH. split.
    + intros [(post & E)|(pre & post & E)].
      * now exists "", post.
      * exists (String c pre), post. cbn. now rewrite E.
    + intros (pre & post & E). destruct pre as [|c' pre].
      * left. now exists post.
      * right. exists pre, post. cbn in E. congruence.
Qed.

Lemma icontains_spec (field q : string) :
  icontains field q = true <-> case_insensitive_substring q field.
Proof. unfold icontains. apply contains_append. Qed.

Lemma job_details___spec (d : DB) (f : JobDetails.t -> bool)
  (p : PersonalDetails.t) :
  job_details__ d f p = true <->
  exists j, In j (job_details d)
            /\ JobDetails.id j = PersonalDetails.job_details p
            /\ f j = true.
Proof.
  unfold job_details__. rewrite existsb_exists.
  split; intros (j & Hj & H); exists j; split; try assumption.
  - apply andb_true_iff in H. now rewrite <- Z.eqb_eq.
  - apply andb_true_iff. now rewrite Z.eqb_eq.
Qed.

(** ** The handlers *)

(** C1.  A manager who is not an administrator and targets an administrator:
    whatever the method, the edit handler and the delete handler leave the
    database and the session as they are, put one error message in the
    cleared flash store and redirect to the list. *)
Theorem administrator_is_protected :
  forall LOGIN_URL has_manager_role manager_denied EditEmployeeForm_clean
         DEPARTMENT_CHOICES request emp_id w caller self_job_details
         target_details target_job target_performance,
    user request = Some caller ->
    has_manager_role (db w) caller = true ->
    get_job_details_by_username (db w) (User.username caller)
      = Ok self_job_details ->
    JobDetails.role self_job_details <> "ADM" ->
    get_object_or_404 (personal_details (db w))
                      (fun p => PersonalDetails.job_details p =? emp_id)
      = Ok target_details ->
    get_object_or_404 (job_details (db w))
                      (fun j => JobDetails.id j =? emp_id)
      = Ok target_job ->
    related_performance (db w) target_job = Ok target_performance ->
    JobDetails.role target_job = "ADM" ->
    update_employee LOGIN_URL has_manager_role manager_denied
                    EditEmployeeForm_clean request emp_id w
    = (Ok (Redirect "list"),
       mkWorld (db w) (session w)
               [mkMessage ERROR "You cannot update an Admin employee."])
    /\ delete_employee LOGIN_URL has_manager_role manager_denied
                       DEPARTMENT_CHOICES request emp_id w
       = (Ok (Redirect "main:list"),
          mkWorld (db w) (session w)
                  [mkMessage ERROR "You cannot delete an Admin employee."]).
Proof.
  intros until target_performance. intros Hu Hm Hs Hns Hpd Hjd Hperf Hadm.
  apply String.eqb_neq in Hns.
  split.
  - unfold update_employee, login_required, manager_required.
    rewrite Hu, Hm. run_handler.
    rewrite Hs, Hpd, Hjd, Hperf, Hadm, Hns. reflexivity.
  - unfold delete_employee, login_required, manager_required.
    rewrite Hu, Hm. run_handler.
    rewrite Hs, Hpd, Hjd, Hadm, Hns. reflexivity.
Qed.

Lemma administrator_is_protected_witness :
  update_employee Sample.LOGIN_URL Sample.has_manager_role
                  Sample.manager_denied Sample.EditEmployeeForm_clean
                  (Sample.post_request Sample.bob
                     [("role", "EMP"); ("department", "SAL")])
                  21 (Sample.world_of Sample.bob)
  = (Ok (Redirect "list"),
     mkWorld Sample.database (Sample.session_of Sample.bob)
             [mkMessage ERROR "You cannot update an Admin employee."])
  /\ delete_employee Sample.LOGIN_URL Sample.has_manager_role
                     Sample.manager_denied Sample.DEPARTMENT_CHOICES
                     (Sample.post_request Sample.bob
                        [("role", "EMP"); ("department", "SAL")])
                     21 (Sample.world_of Sample.bob)
     = (Ok (Redirect "main:list"),
        mkWorld Sample.database (Sample.session_of Sample.bob)
                [mkMessage ERROR "You cannot delete an Admin employee."]).
Proof.
  apply (administrator_is_protected
           Sample.LOGIN_URL Sample.has_manager_role Sample.manager_denied
           Sample.EditEmployeeForm_clean Sample.DEPARTMENT_CHOICES
           (Sample.post_request Sample.bob
              [("role", "EMP"); ("department", "SAL")])
           21 (Sample.world_of Sample.bob) Sample.bob Sample.bob_job
           Sample.alice_details Sample.alice_job
           (Some (Performance.empty 31)));
    try reflexivity.
  intros H; discriminate H.
Defined.

(** C2.  The listing of an authenticated manager.  A caller whose role is
    not "ADM" gets no row whose Job Details role is "ADM"; a caller whose
    role is "ADM" gets every row that the search, if any, selects, those of
    role "ADM" included. *)
Theorem employees_list_visibility :
  forall LOGIN_URL has_manager_role manager_denied request w caller
         self_job_details,
    user request = Some caller ->
    has_manager_role (db w) caller = true ->
    get_job_details_by_username (db w) (User.username caller)
      = Ok self_job_details ->
    exists employees,
      employees_list LOGIN_URL has_manager_role manager_denied request w
      = (Ok (Render "main/list.html"
                    (ListContext employees (JobDetails.id self_job_details))),
         w)
      /\ (JobDetails.role self_job_details <> "ADM" ->
          forall p j,
            In p employees ->
            In j (job_details (db w)) ->
            JobDetails.id j = PersonalDetails.job_details p ->
            JobDetails.role j <> "ADM")
      /\ (JobDetails.role self_job_details = "ADM" ->
          let search_query := dict_get (GET request) "search" "" in
          forall p,
            In p (personal_details (db w)) ->
            search_query = ""
            \/ icontains (PersonalDetails.first_name p) search_query = true
            \/ icontains (PersonalDetails.last_name p) search_query = true
            \/ job_details__ (db w)
                 (fun j => icontains (JobDetails.department j) search_query) p
               = true ->
            In p employees).
Proof.
  intros until self_job_details. intros Hu Hm Hs.
  unfold employees_list, login_required, manager_required.
  rewrite Hu, Hm. run_handler. rewrite Hs.
  eexists. split; [reflexivity|]. split.
  - intros Hrole p j Hp Hj Hid Hadm.
    apply String.eqb_neq in Hrole. rewrite Hrole in Hp. cbn [negb] in Hp.
    assert (Hvis : In p (filter
                           (fun p => negb (job_details__ (db w)
                              (fun j => String.eqb (JobDetails.role j) "ADM")
                              p))
                           (personal_details (db w)))).
    { destruct (truthy _); [|assumption]. now apply filter_In in Hp. }
    apply filter_In in Hvis. destruct Hvis as [_ Hvis].
    apply negb_true_iff in Hvis.
    assert (Hex : job_details__ (db w)
                    (fun j => String.eqb (JobDetails.role j) "ADM") p = true).
    { apply job_details___spec. exists j. repeat split; try assumption.
      now apply String.eqb_eq. }
    congruence.
  - intros Hrole. cbv zeta. intros p Hp Hsel.
    rewrite Hrole. cbn [String.eqb Ascii.eqb Bool.eqb negb].
    unfold truthy.
    destruct (String.eqb (dict_get (GET request) "search" "") "") eqn:Eq;
      cbn [negb]; [assumption|].
    apply filter_In. split; [assumption|].
    apply String.eqb_neq in Eq.
    destruct Hsel as [H|[H|[H|H]]]; [contradiction| | |]; rewrite H;
      now rewrite ?orb_true_r.
Qed.

Lemma employees_list_visibility_witness :
  exists employees,
    employees_list Sample.LOGIN_URL Sample.has_manager_role
                   Sample.manager_denied (Sample.get_request Sample.bob [])
                   (Sample.world_of Sample.bob)
    = (Ok (Render "main/list.html" (ListContext employees 22)),
       Sample.world_of Sample.bob)
    /\ ~ In Sample.alice_details employees
    /\ In Sample.carol_details employees.
Proof.
  destruct (employees_list_visibility
              Sample.LOGIN_URL Sample.has_manager_role Sample.manager_denied
              (Sample.get_request Sample.bob []) (Sample.world_of Sample.bob)
              Sample.bob Sample.bob_job eq_refl eq_refl eq_refl)
    as (employees & Hrun & Hhidden & _).
  exists employees. split; [exact Hrun|]. split.
  - intros Hin.
    apply (Hhidden ltac:(discriminate) Sample.alice_details Sample.alice_job
                   Hin ltac:(now left) eq_refl eq_refl).
  - vm_compute in Hrun. injection Hrun as <-. right. now left.
Defined.


Lemma search_filter_spec (d : DB) (q : string) (p : PersonalDetails.t) :
  icontains (PersonalDetails.first_name p) q
  || icontains (PersonalDetails.last_name p) q
  || job_details__ d (fun j => icontains (JobDetails.department j) q) p
  = true
  <-> search_matches d q p.
Proof.
  unfold search_matches.
  rewrite !orb_true_iff, !icontains_spec, job_details___spec.
  split.
  - intros [[H|H]|(j & Hj & Hid & H)]; [tauto|tauto|].
    right. right. exists j. now rewrite <- icontains_spec.
  - intros [H|[H|(j & Hj & Hid & H)]]; [tauto|tauto|].
    right. exists j. now rewrite icontains_spec.
Qed.

Lemma exclude_spec (d : DB) (self_job_details : JobDetails.t)
  (p : PersonalDetails.t) :
  In p (if negb (String.eqb (JobDetails.role self_job_details) "ADM")
        then filter (fun p =>
                       negb (job_details__ d
                               (fun j => String.eqb (JobDetails.role j) "ADM")
                               p))
                    (personal_details d)
        else personal_details d)
  <-> visible_to d self_job_details p.
Proof.
  unfold visible_to.
  destruct (String.eqb (JobDetails.role self_job_details) "ADM") eqn:E;
    cbn [negb].
  - apply String.eqb_eq in E. tauto.
  - apply String.eqb_neq in E. rewrite filter_In, negb_true_iff.
    split; intros [Hp H]; (split; [assumption|]).
    + intros _ j Hj Hid Hadm.
      assert (Hex : job_details__ d
                      (fun j => String.eqb (JobDetails.role j) "ADM") p
                    = true).
      { apply job_details___spec. exists j. repeat split; try assumption.
        now apply String.eqb_eq. }
      congruence.
    + destruct (job_details__ d _ p) eqn:Ex; [|reflexivity].
      apply job_details___spec in Ex. destruct Ex as (j & Hj & Hid & Hadm).
      apply String.eqb_eq in Hadm. exfalso. exact (H E j Hj Hid Hadm).
Qed.

(** C7.  A listing requested with a non-empty search query holds exactly the
    visible employees for which the query is a case-insensitive substring of
    the first name, of the last name or of the department; a visible
    employee whose department contains the query is listed, and a query that
    matches no employee gives the empty list. *)
Theorem employees_list_search :
  forall LOGIN_URL has_manager_role manager_denied request w caller
         self_job_details,
    user request = Some caller ->
    has_manager_role (db w) caller = true ->
    get_job_details_by_username (db w) (User.username caller)
      = Ok self_job_details ->
    dict_get (GET request) "search" "" <> "" ->
    exists employees,
      employees_list LOGIN_URL has_manager_role manager_denied request w
      = (Ok (Render "main/list.html"
                    (ListContext employees (JobDetails.id self_job_details))),
         w)
      /\ (forall p,
            In p employees <->
            visible_to (db w) self_job_details p
            /\ search_matches (db w) (dict_get (GET request) "search" "") p)
      /\ (forall p j,
            visible_to (db w) self_job_details p ->
            In j (job_details (db w)) ->
            JobDetails.id j = PersonalDetails.job_details p ->
            case_insensitive_substring (dict_get (GET request) "search" "")
                                       (JobDetails.department j) ->
            In p employees)
      /\ ((forall p, In p (personal_details (db w)) ->
                     ~ search_matches (db w)
                         (dict_get (GET request) "search" "") p) ->
          employees = []).
Proof.
  intros until self_job_details. intros Hu Hm Hs Hq.
  unfold employees_list, login_required, manager_required.
  rewrite Hu, Hm. run_handler. rewrite Hs.
  apply String.eqb_neq in Hq. unfold truthy. rewrite Hq. cbn [negb].
  eexists. split; [reflexivity|].
  assert (Hiff : forall p,
    In p (filter
            (fun p =>
               icontains (PersonalDetails.first_name p)
                         (dict_get (GET request) "search" "")
               || icontains (PersonalDetails.last_name p)
                            (dict_get (GET request) "search" "")
               || job_details__ (db w)
                    (fun j => icontains (JobDetails.department j)
                                        (dict_get (GET request) "search" ""))
                    p)
            (if negb (String.eqb (JobDetails.role self_job_details) "ADM")
             then filter
                    (fun p =>
                       negb (job_details__ (db w)
                               (fun j => String.eqb (JobDetails.role j) "ADM")
                               p))
                    (personal_details (db w))
             else personal_details (db w)))
    <-> visible_to (db w) self_job_details p
        /\ search_matches (db w) (dict_get (GET request) "search" "") p).
  { intros p. now rewrite filter_In, exclude_spec, search_filter_spec. }
  split; [exact Hiff|]. split.
  - intros p j Hvis Hj Hid Hsub. apply Hiff. split; [assumption|].
    right. right. now exists j.
  - intros Hnone. apply filter_none. intros p Hp.
    apply exclude_spec in Hp. destruct Hp as [Hp _].
    match goal with |- ?b = false => destruct b eqn:E end; [|reflexivity].
    apply search_filter_spec in E. exfalso. exact (Hnone p Hp E).
Qed.

Lemma employees_list_search_witness :
  exists employees,
    employees_list Sample.LOGIN_URL Sample.has_manager_role
                   Sample.manager_denied
                   (Sample.get_request Sample.bob [("search", "sA")])
                   (Sample.world_of Sample.bob)
    = (Ok (Render "main/list.html" (ListContext employees 22)),
       Sample.world_of Sample.bob)
    /\ In Sample.carol_details employees.
Proof.
  destruct (employees_list_search
              Sample.LOGIN_URL Sample.has_manager_role Sample.manager_denied
              (Sample.get_request Sample.bob [("search", "sA")])
              (Sample.world_of Sample.bob)
              Sample.bob Sample.bob_job eq_refl eq_refl eq_refl
              ltac:(discriminate))
    as (employees & Hrun & _ & Hdept & _).
  exists employees. split; [exact Hrun|].
  apply (Hdept Sample.carol_details Sample.carol_job).
  - split; [right; right; now left|].
    intros _ j [<-|[<-|[<-|[]]]]; cbn; intros H; discriminate.
  - right. right. now left.
  - reflexivity.
  - exists "", "l". reflexivity.
Defined.

(** C3.  A confirmed delete by an authorized manager on an existing target:
    the account found by the target's username is deleted, then the Personal
    Details row with its Job Details and Performance; the handler answers
    with the success message and the redirect, and afterwards the lookups of
    that employee by username and by id find no row. *)
Theorem delete_employee_removes :
  forall LOGIN_URL has_manager_role manager_denied DEPARTMENT_CHOICES
         request emp_id w caller self_job_details target_details
         target_job account,
    user request = Some caller ->
    has_manager_role (db w) caller = true ->
    method request = "POST" ->
    get_job_details_by_username (db w) (User.username caller)
      = Ok self_job_details ->
    get_object_or_404 (personal_details (db w))
                      (fun p => PersonalDetails.job_details p =? emp_id)
      = Ok target_details ->
    get_object_or_404 (job_details (db w))
                      (fun j => JobDetails.id j =? emp_id)
      = Ok target_job ->
    (JobDetails.role target_job = "ADM" ->
     JobDetails.role self_job_details = "ADM") ->
    get_object_or_404
      (users (db w))
      (fun u => String.eqb (User.username u)
                           (PersonalDetails.username target_details))
      = Ok account ->
    let d' := delete_personal_details target_details
                                      (delete_user account (db w)) in
    delete_employee LOGIN_URL has_manager_role manager_denied
                    DEPARTMENT_CHOICES request emp_id w
    = (Ok (Redirect "main:list"),
       mkWorld d' (session w)
               [mkMessage SUCCESS "Employee deleted successfully."])
    /\ get_object_or_404
         (users d')
         (fun u => String.eqb (User.username u)
                              (PersonalDetails.username target_details))
       = Raise Http404
    /\ get_object_or_404 (personal_details d')
                         (fun p => PersonalDetails.job_details p =? emp_id)
       = Raise Http404
    /\ get_object_or_404 (job_details d')
                         (fun j => JobDetails.id j =? emp_id)
       = Raise Http404
    /\ (forall k, JobDetails.performance target_job = Some k ->
                  get (performances d') (fun x => Performance.id x =? k)
                  = Raise DoesNotExist)
    /\ (get_personal_details_by_username
          (db w) (PersonalDetails.username target_details)
        = Ok target_details ->
        get_personal_details_by_username
          d' (PersonalDetails.username target_details)
        = Raise Http404).
Proof.
  intros until account. intros Hu Hm Hpost Hs Hpd Hjd Hauth Hacc d'.
  pose proof (get_object_or_404_Ok _ _ _ Hpd) as Hpd'.
  pose proof (get_object_or_404_Ok _ _ _ Hjd) as Hjd'.
  pose proof (get_object_or_404_Ok _ _ _ Hacc) as Hacc'.
  destruct (filter_singleton _ _ _ Hpd') as [Hpd_in Hpd_fk].
  destruct (filter_singleton _ _ _ Hjd') as [Hjd_in Hjd_id].
  apply Z.eqb_eq in Hpd_fk, Hjd_id.
  split; [|split; [|split; [|split; [|split]]]].
  - unfold delete_employee, login_required, manager_required.
    rewrite Hu, Hm. run_handler. rewrite Hs, Hpd, Hjd.
    replace (String.eqb (JobDetails.role target_job) "ADM"
             && negb (String.eqb (JobDetails.role self_job_details) "ADM"))
      with false.
    + rewrite Hpost, String.eqb_refl. cbn [db session flash].
      rewrite Hacc. reflexivity.
    + destruct (String.eqb (JobDetails.role target_job) "ADM") eqn:E;
        [|reflexivity].
      apply String.eqb_eq in E. apply Hauth in E.
      apply String.eqb_eq in E. now rewrite E.
  - apply get_object_or_404_none. intros x Hx.
    subst d'. cbn [users delete_personal_details delete_user] in Hx.
    apply in_delete in Hx. destruct Hx as [Hx Hk].
    destruct (String.eqb (User.username x) _) eqn:E; [|reflexivity].
    exfalso. apply Hk. f_equal.
    exact (filter_singleton_unique _ _ _ _ Hacc' Hx E).
  - apply get_object_or_404_none. intros x Hx.
    subst d'. cbn [personal_details delete_personal_details] in Hx.
    apply in_delete in Hx. destruct Hx as [Hx Hk].
    cbn [personal_details delete_user] in Hx.
    destruct (PersonalDetails.job_details x =? emp_id) eqn:E; [|reflexivity].
    exfalso. apply Hk. f_equal.
    exact (filter_singleton_unique _ _ _ _ Hpd' Hx E).
  - apply get_object_or_404_none. intros x Hx.
    subst d'. cbn [job_details delete_personal_details] in Hx.
    apply in_delete in Hx. destruct Hx as [_ Hk].
    apply Z.eqb_neq. congruence.
  - intros k Hk. apply get_none. intros x Hx.
    subst d'. cbn [performances delete_personal_details] in Hx.
    apply filter_In in Hx. destruct Hx as [_ Hx].
    apply negb_true_iff in Hx.
    destruct (Performance.id x =? k) eqn:E; [|reflexivity].
    apply Z.eqb_eq in E. rewrite <- Hx. symmetry.
    apply existsb_exists. exists k. split; [|now apply Z.eqb_eq].
    unfold cascade_performance_keys. apply in_flat_map.
    exists target_job. split.
    + cbn [job_details delete_user]. apply filter_In.
      split; [assumption|]. apply Z.eqb_eq. congruence.
    + rewrite Hk. now left.
  - intros Hname. apply get_object_or_404_Ok in Hname.
    unfold get_personal_details_by_username.
    apply get_object_or_404_none. intros x Hx.
    subst d'. cbn [personal_details delete_personal_details] in Hx.
    apply in_delete in Hx. destruct Hx as [Hx Hk].
    cbn [personal_details delete_user] in Hx.
    destruct (String.eqb (PersonalDetails.username x) _) eqn:E;
      [|reflexivity].
    exfalso. apply Hk. f_equal.
    exact (filter_singleton_unique _ _ _ _ Hname Hx E).
Qed.

Lemma delete_employee_removes_witness :
  delete_employee Sample.LOGIN_URL Sample.has_manager_role
                  Sample.manager_denied Sample.DEPARTMENT_CHOICES
                  (Sample.post_request Sample.bob []) 23
                  (Sample.world_of Sample.bob)
  = (Ok (Redirect "main:list"),
     mkWorld (mkDB [Sample.alice; Sample.bob]
                   [Sample.alice_details; Sample.bob_details]
                   [Sample.alice_job; Sample.bob_job]
                   [Performance.empty 31; Performance.empty 32])
             (Sample.session_of Sample.bob)
             [mkMessage SUCCESS "Employee deleted successfully."])
  /\ get_personal_details_by_username
       (delete_personal_details Sample.carol_details
                                (delete_user Sample.carol Sample.database))
       "carol"
     = Raise Http404.
Proof.
  destruct (delete_employee_removes
              Sample.LOGIN_URL Sample.has_manager_role Sample.manager_denied
              Sample.DEPARTMENT_CHOICES (Sample.post_request Sample.bob []) 23
              (Sample.world_of Sample.bob) Sample.bob Sample.bob_job
              Sample.carol_details Sample.carol_job Sample.carol
              eq_refl eq_refl eq_refl eq_refl eq_refl eq_refl
              ltac:(intros H; discriminate H) eq_refl)
    as (Hrun & _ & _ & _ & _ & Hname).
  split; [exact Hrun|exact (Hname eq_refl)].
Defined.

(** C4.  A valid registration appends one account, one empty Performance,
    one Job Details that references that Performance and one Personal
    Details that references that Job Details and mirrors the account; each
    under a key no row of its table had; nothing else changes but the
    success message. *)
Theorem user_register_creates :
  forall make_password RegisterForm_clean_fields request w cd,
    method request = "POST" ->
    RegisterForm_clean RegisterForm_clean_fields (db w) (POST request)
      = Some cd ->
    let d := db w in
    let account :=
      User.mk (next_id User.id (users d)) (RegisterData.username cd)
              (RegisterData.first_name cd) (RegisterData.last_name cd)
              (RegisterData.email cd)
              (make_password (RegisterData.password cd)) true in
    let performance :=
      Performance.mk (next_id Performance.id (performances d))
                     None None None in
    let job :=
      JobDetails.mk (next_id JobDetails.id (job_details d)) "" ""
                    (Some (Performance.id performance)) in
    let details :=
      PersonalDetails.mk (next_id PersonalDetails.id (personal_details d))
                         (User.first_name account) (User.last_name account)
                         (User.username account) (User.email account)
                         (User.password account) (JobDetails.id job) in
    user_register make_password RegisterForm_clean_fields request w
    = (Ok (Redirect "/"),
       mkWorld (mkDB (users d ++ [account])
                     (personal_details d ++ [details])
                     (job_details d ++ [job])
                     (performances d ++ [performance]))
               (session w)
               (flash w ++ [mkMessage SUCCESS "Registration successful!"]))
    /\ ~ In (User.id account) (map User.id (users d))
    /\ ~ In (Performance.id performance)
            (map Performance.id (performances d))
    /\ ~ In (JobDetails.id job) (map JobDetails.id (job_details d))
    /\ ~ In (PersonalDetails.id details)
            (map PersonalDetails.id (personal_details d)).
Proof.
  intros make_password clean_fields request w cd Hpost Hvalid.
  cbv zeta. split.
  - unfold user_register. rewrite Hpost, String.eqb_refl.
    run_handler. rewrite Hvalid.
    unfold insert_user, create_performance, create_job_details,
      create_personal_details.
    cbn [db session flash users personal_details job_details performances].
    unfold RegisterForm_clean in Hvalid.
    destruct (clean_fields (POST request)) as [cd'|]; [|discriminate].
    destruct (username_taken (db w) (RegisterData.username cd') None
              || existsb _ (users (db w))) eqn:E; [discriminate|].
    injection Hvalid as ->. apply orb_false_iff in E. destruct E as [E _].
    unfold RegisterForm_save at 1.
    cbn [User.username User.first_name User.last_name User.email
         User.password].
    rewrite E. reflexivity.
  - cbn [User.id Performance.id JobDetails.id PersonalDetails.id].
    repeat split; apply next_id_fresh.
Qed.

Lemma user_register_creates_witness :
  user_register Sample.make_password Sample.RegisterForm_clean_fields
                (mkRequest "POST" None []
                   [("first_name", "Dan"); ("last_name", "Dale");
                    ("username", "dan"); ("email", "dan@corp.test");
                    ("password1", "d-secret"); ("password2", "d-secret")])
                (mkWorld Sample.database (mkSession None "") [])
  = (Ok (Redirect "/"),
     mkWorld
       (mkDB [Sample.alice; Sample.bob; Sample.carol;
              User.mk 4 "dan" "Dan" "Dale" "dan@corp.test" "pbkdf2$d-secret"
                      true]
             [Sample.alice_details; Sample.bob_details; Sample.carol_details;
              PersonalDetails.mk 14 "Dan" "Dale" "dan" "dan@corp.test"
                                 "pbkdf2$d-secret" 24]
             [Sample.alice_job; Sample.bob_job; Sample.carol_job;
              JobDetails.mk 24 "" "" (Some 34)]
             [Performance.empty 31; Performance.empty 32;
              Performance.mk 33 (Some (mkDate 2023 11 2)) (Some 3)
                             (Some "steady");
              Performance.mk 34 None None None])
       (mkSession None "")
       [mkMessage SUCCESS "Registration successful!"]).
Proof.
  exact (proj1 (user_register_creates
                  Sample.make_password Sample.RegisterForm_clean_fields
                  (mkRequest "POST" None []
                     [("first_name", "Dan"); ("last_name", "Dale");
                      ("username", "dan"); ("email", "dan@corp.test");
                      ("password1", "d-secret"); ("password2", "d-secret")])
                  (mkWorld Sample.database (mkSession None "") [])
                  (RegisterData.mk "Dan" "Dale" "dan" "dan@corp.test"
                                   "d-secret")
                  eq_refl eq_refl)).
Defined.

(** ** Editing the profile *)

Lemma username_taken_other (d : DB) (name : string) (k : Z) :
  username_taken d name (Some k) = false ->
  forall x, In x (users d) -> User.id x <> k ->
            String.eqb (User.username x) name = false.
Proof.
  unfold username_taken. intros H x Hx Hk.
  destruct (String.eqb (User.username x) name) eqn:E; [|reflexivity].
  rewrite <- H. symmetry. apply existsb_exists. exists x.
  split; [assumption|]. rewrite E. apply Z.eqb_neq in Hk. now rewrite Hk.
Qed.

Section UpdateProfile.
Variable make_password : string -> string.
Variable session_auth_hash : string -> string.
Variable authenticate : DB -> string -> string -> option User.t.
Variable LOGIN_URL : string.
Variable EditProfileForm_clean :
  DB -> PersonalDetails.t -> QueryDict -> option ProfileData.t.
Variable request : Request.
Variable id : Z.
Variable w : World.
Variable u : User.t.
Variable details : PersonalDetails.t.
Variable cd : ProfileData.t.
Hypothesis Huser : user request = Some u.
Hypothesis Hpost : method request = "POST".
Hypothesis Hdetails :
  get_object_or_404
    (personal_details (db w))
    (fun p => String.eqb (PersonalDetails.username p) (User.username u))
  = Ok details.
Hypothesis Hvalid :
  EditProfileForm_clean (db w) details (POST request) = Some cd.

Lemma update_profile_saved (d' : DB) :
  save_user
    (User.mk (User.id u) (ProfileData.username cd) (User.first_name u)
             (User.last_name u) (ProfileData.email cd)
             (if truthy (ProfileData.new_password cd)
              then make_password (ProfileData.new_password cd)
              else User.password u)
             (User.is_active u))
    (save_personal_details (EditProfileForm_save cd details) (db w))
  = Ok d' ->
  update_profile make_password session_auth_hash authenticate LOGIN_URL
                 EditProfileForm_clean request id w
  = (Ok (Render "main/edit-profile.html"
                (EditProfileContext
                   (Bound (EditProfileForm_save cd details) (POST request)
                          (Some cd))
                   id)),
     mkWorld d'
             (if truthy (ProfileData.new_password cd)
              then match authenticate d' (ProfileData.username cd)
                                      (ProfileData.new_password cd) with
                   | Some updated_user =>
                       mkSession (Some (User.id updated_user))
                                 (session_auth_hash
                                    (User.password updated_user))
                   | None => session w
                   end
              else session w)
             [mkMessage SUCCESS "Update was successful."]).
Proof.
  intros Hsave. unfold update_profile, login_required.
  rewrite Huser. run_handler. rewrite Hdetails, Hpost, String.eqb_refl.
  cbn [db session flash]. rewrite Hvalid.
  cbn [User.id User.username User.first_name User.last_name User.email
       User.password User.is_active] in *.
  destruct (truthy (ProfileData.new_password cd)); run_handler;
    rewrite Hsave; [|reflexivity].
  unfold login. cbn [db session flash].
  destruct (authenticate d' _ _); reflexivity.
Qed.

Lemma update_profile_refused (e : exn) :
  save_user
    (User.mk (User.id u) (ProfileData.username cd) (User.first_name u)
             (User.last_name u) (ProfileData.email cd)
             (if truthy (ProfileData.new_password cd)
              then make_password (ProfileData.new_password cd)
              else User.password u)
             (User.is_active u))
    (save_personal_details (EditProfileForm_save cd details) (db w))
  = Raise e ->
  fst (update_profile make_password session_auth_hash authenticate LOGIN_URL
                      EditProfileForm_clean request id w)
  = Raise e.
Proof.
  intros Hsave. unfold update_profile, login_required.
  rewrite Huser. run_handler. rewrite Hdetails, Hpost, String.eqb_refl.
  cbn [db session flash]. rewrite Hvalid.
  cbn [User.id User.username User.first_name User.last_name User.email
       User.password User.is_active] in *.
  destruct (truthy (ProfileData.new_password cd)); run_handler;
    rewrite Hsave; reflexivity.
Qed.

End UpdateProfile.

(** C9.  A password change after which the re-authentication returns no
    user: the handler leaves the session as it was, adds no message for the
    failure and reports the update as successful. *)
Theorem reauthentication_failure_is_ignored :
  forall make_password session_auth_hash authenticate LOGIN_URL
         EditProfileForm_clean request id w u details cd d',
    user request = Some u ->
    method request = "POST" ->
    get_object_or_404
      (personal_details (db w))
      (fun p => String.eqb (PersonalDetails.username p) (User.username u))
    = Ok details ->
    EditProfileForm_clean (db w) details (POST request) = Some cd ->
    ProfileData.new_password cd <> "" ->
    save_user
      (User.mk (User.id u) (ProfileData.username cd) (User.first_name u)
               (User.last_name u) (ProfileData.email cd)
               (make_password (ProfileData.new_password cd))
               (User.is_active u))
      (save_personal_details (EditProfileForm_save cd details) (db w))
    = Ok d' ->
    authenticate d' (ProfileData.username cd) (ProfileData.new_password cd)
    = None ->
    update_profile make_password session_auth_hash authenticate LOGIN_URL
                   EditProfileForm_clean request id w
    = (Ok (Render "main/edit-profile.html"
                  (EditProfileContext
                     (Bound (EditProfileForm_save cd details) (POST request)
                            (Some cd))
                     id)),
       mkWorld d' (session w)
               [mkMessage SUCCESS "Update was successful."]).
Proof.
  intros until d'. intros Hu Hpost Hdetails Hvalid Hnew Hsave Hauth.
  assert (Htruthy : truthy (ProfileData.new_password cd) = true).
  { unfold truthy. apply negb_true_iff. now apply String.eqb_neq. }
  rewrite (update_profile_saved make_password session_auth_hash authenticate
             LOGIN_URL EditProfileForm_clean request id w u details cd
             Hu Hpost Hdetails Hvalid d').
  - now rewrite Htruthy, Hauth.
  - now rewrite Htruthy.
Qed.

Lemma reauthentication_failure_is_ignored_witness :
  update_profile Sample.make_password Sample.session_auth_hash
                 Sample.remote_authenticate Sample.LOGIN_URL
                 Sample.EditProfileForm_clean
                 (Sample.post_request Sample.bob
                    [("first_name", "Robert"); ("last_name", "Baker");
                     ("username", "bob"); ("email", "bob@new.test");
                     ("new_password", "n-secret")])
                 12 (Sample.world_of Sample.bob)
  = (Ok (Render "main/edit-profile.html"
                (EditProfileContext
                   (Bound (PersonalDetails.mk 12 "Robert" "Baker" "bob"
                                              "bob@new.test"
                                              "pbkdf2$b-secret" 22)
                          [("first_name", "Robert"); ("last_name", "Baker");
                           ("username", "bob"); ("email", "bob@new.test");
                           ("new_password", "n-secret")]
                          (Some (ProfileData.mk "Robert" "Baker" "bob"
                                                "bob@new.test" "n-secret")))
                   12)),
     mkWorld (mkDB [Sample.alice;
                    User.mk 2 "bob" "Bob" "Baker" "bob@new.test"
                            "pbkdf2$n-secret" true;
                    Sample.carol]
                   [Sample.alice_details;
                    PersonalDetails.mk 12 "Robert" "Baker" "bob"
                                       "bob@new.test" "pbkdf2$b-secret" 22;
                    Sample.carol_details]
                   [Sample.alice_job; Sample.bob_job; Sample.carol_job]
                   (performances Sample.database))
             (Sample.session_of Sample.bob)
             [mkMessage SUCCESS "Update was successful."]).
Proof.
  exact (reauthentication_failure_is_ignored
           Sample.make_password Sample.session_auth_hash
           Sample.remote_authenticate Sample.LOGIN_URL
           Sample.EditProfileForm_clean
           (Sample.post_request Sample.bob
              [("first_name", "Robert"); ("last_name", "Baker");
               ("username", "bob"); ("email", "bob@new.test");
               ("new_password", "n-secret")])
           12 (Sample.world_of Sample.bob) Sample.bob Sample.bob_details
           (ProfileData.mk "Robert" "Baker" "bob" "bob@new.test" "n-secret")
           _ eq_refl eq_refl eq_refl eq_refl ltac:(discriminate) eq_refl
           eq_refl).
Defined.

Lemma save_user_Ok (a : User.t) (d d' : DB) :
  save_user a d = Ok d' ->
  username_taken d (User.username a) (Some (User.id a)) = false
  /\ d' = mkDB (save User.id a (users d)) (personal_details d)
               (job_details d) (performances d).
Proof.
  unfold save_user. destruct (username_taken _ _ _); [discriminate|].
  intros H. injection H as <-. now split.
Qed.

(** C5.  A valid profile edit under the default authentication backend.
    With a new password, the account is stored with the hash of the new
    password, the new credentials authenticate, and the session is that of
    a fresh login, valid for the next request.  Without one, the account is
    stored with the password it had and the session is left alone. *)
Theorem update_profile_password :
  forall make_password check_password session_auth_hash LOGIN_URL
         EditProfileForm_clean request id w u details cd,
    (forall raw, check_password raw (make_password raw) = true) ->
    NoDup (map User.id (users (db w))) ->
    user request = Some u ->
    User.is_active u = true ->
    method request = "POST" ->
    get_object_or_404
      (personal_details (db w))
      (fun p => String.eqb (PersonalDetails.username p) (User.username u))
    = Ok details ->
    EditProfileForm_clean (db w) details (POST request) = Some cd ->
    username_taken (db w) (ProfileData.username cd) (Some (User.id u))
    = false ->
    let stored password :=
      User.mk (User.id u) (ProfileData.username cd) (User.first_name u)
              (User.last_name u) (ProfileData.email cd) password
              (User.is_active u) in
    exists w',
      update_profile make_password session_auth_hash
                     (ModelBackend_authenticate check_password) LOGIN_URL
                     EditProfileForm_clean request id w
      = (Ok (Render "main/edit-profile.html"
                    (EditProfileContext
                       (Bound (EditProfileForm_save cd details)
                              (POST request) (Some cd))
                       id)),
         w')
      /\ flash w' = [mkMessage SUCCESS "Update was successful."]
      /\ (ProfileData.new_password cd <> "" ->
          let hashed := make_password (ProfileData.new_password cd) in
          get (users (db w')) (fun a => User.id a =? User.id u)
          = Ok (stored hashed)
          /\ ModelBackend_authenticate check_password (db w')
               (ProfileData.username cd) (ProfileData.new_password cd)
             = Some (stored hashed)
          /\ session w'
             = mkSession (Some (User.id u)) (session_auth_hash hashed)
          /\ session_valid session_auth_hash (db w') (session w') = true)
      /\ (ProfileData.new_password cd = "" ->
          get (users (db w')) (fun a => User.id a =? User.id u)
          = Ok (stored (User.password u))
          /\ session w' = session w).
Proof.
  intros until cd. intros Hcheck Hkeys Hu Hactive Hpost Hdetails Hvalid Hfree.
  cbv zeta.
  set (np := ProfileData.new_password cd).
  set (account :=
         User.mk (User.id u) (ProfileData.username cd) (User.first_name u)
                 (User.last_name u) (ProfileData.email cd)
                 (if truthy np then make_password np else User.password u)
                 (User.is_active u)).
  set (d' := mkDB (save User.id account (users (db w)))
                  (save PersonalDetails.id (EditProfileForm_save cd details)
                        (personal_details (db w)))
                  (job_details (db w)) (performances (db w))).
  assert (Hsave : save_user account
                    (save_personal_details (EditProfileForm_save cd details)
                                           (db w))
                  = Ok d').
  { unfold save_user, username_taken in *.
    cbn [users save_personal_details User.username User.id account].
    now rewrite Hfree. }
  assert (Hby_key : get (users d') (fun a => User.id a =? User.id u)
                    = Ok account).
  { unfold get. cbn [users d'].
    rewrite (filter_save User.id (fun a => User.id a =? User.id u) account);
      [reflexivity|assumption|apply Z.eqb_refl|].
    intros x _ Hk. now apply Z.eqb_neq. }
  assert (Hby_name :
            get (users d')
                (fun a => String.eqb (User.username a)
                                     (ProfileData.username cd))
            = Ok account).
  { unfold get. cbn [users d'].
    rewrite (filter_save User.id
               (fun a => String.eqb (User.username a)
                                    (ProfileData.username cd)) account);
      [reflexivity|assumption|apply String.eqb_refl|].
    intros x Hx Hk. exact (username_taken_other _ _ _ Hfree x Hx Hk). }
  eexists. split.
  { exact (update_profile_saved make_password session_auth_hash
             (ModelBackend_authenticate check_password) LOGIN_URL
             EditProfileForm_clean request id w u details cd
             Hu Hpost Hdetails Hvalid d' Hsave). }
  cbn [db session flash]. split; [reflexivity|]. split.
  - intros Hnew.
    assert (Htruthy : truthy np = true).
    { unfold truthy. apply negb_true_iff. now apply String.eqb_neq. }
    assert (Hauth : ModelBackend_authenticate check_password d'
                      (ProfileData.username cd) np = Some account).
    { unfold ModelBackend_authenticate. rewrite Hby_name.
      unfold account at 1 2. cbn [User.password User.is_active].
      now rewrite Htruthy, Hcheck, Hactive. }
    fold np. rewrite Htruthy, Hauth.
    unfold account in *. rewrite Htruthy in *.
    cbn [User.id User.password].
    repeat split; try assumption.
    unfold session_valid. cbn [auth_user_id auth_user_hash].
    rewrite Hby_key. cbn [User.is_active User.password].
    now rewrite Hactive, String.eqb_refl.
  - intros Hnew.
    assert (Htruthy : truthy np = false) by now rewrite Hnew.
    fold np. rewrite Htruthy. unfold account in *. rewrite Htruthy in *.
    now split.
Qed.

Lemma sample_check_password (raw : string) :
  Sample.check_password raw (Sample.make_password raw) = true.
Proof. apply String.eqb_refl. Qed.

Lemma sample_user_keys : NoDup (map User.id (users Sample.database)).
Proof.
  cbn. repeat constructor; cbn; intros H;
    repeat (destruct H as [H|H]; [discriminate H|]); exact H.
Qed.

Lemma update_profile_password_witness :
  exists w',
    fst (update_profile Sample.make_password Sample.session_auth_hash
                        Sample.authenticate Sample.LOGIN_URL
                        Sample.EditProfileForm_clean
                        (Sample.post_request Sample.bob
                           [("first_name", "Robert"); ("last_name", "Baker");
                            ("username", "rob"); ("email", "bob@new.test");
                            ("new_password", "n-secret")])
                        12 (Sample.world_of Sample.bob))
    = Ok (Render "main/edit-profile.html"
                 (EditProfileContext
                    (Bound (PersonalDetails.mk 12 "Robert" "Baker" "rob"
                                               "bob@new.test"
                                               "pbkdf2$b-secret" 22)
                           [("first_name", "Robert"); ("last_name", "Baker");
                            ("username", "rob"); ("email", "bob@new.test");
                            ("new_password", "n-secret")]
                           (Some (ProfileData.mk "Robert" "Baker" "rob"
                                                 "bob@new.test" "n-secret")))
                    12))
    /\ session w' = mkSession (Some 2) "hmac$pbkdf2$n-secret"
    /\ session_valid Sample.session_auth_hash (db w') (session w') = true.
Proof.
  destruct (update_profile_password
              Sample.make_password Sample.check_password
              Sample.session_auth_hash Sample.LOGIN_URL
              Sample.EditProfileForm_clean
              (Sample.post_request Sample.bob
                 [("first_name", "Robert"); ("last_name", "Baker");
                  ("username", "rob"); ("email", "bob@new.test");
                  ("new_password", "n-secret")])
              12 (Sample.world_of Sample.bob) Sample.bob Sample.bob_details
              (ProfileData.mk "Robert" "Baker" "rob" "bob@new.test"
                              "n-secret")
              sample_check_password sample_user_keys
              eq_refl eq_refl eq_refl eq_refl eq_refl eq_refl)
    as (w' & Hrun & _ & Hnew & _).
  destruct (Hnew ltac:(discriminate)) as (_ & _ & Hsession & Hvalid).
  exists w'. split; [|split; assumption].
  unfold Sample.authenticate. now rewrite Hrun.
Defined.

(** C8.  After a successful profile edit, the account of the caller's key
    and the Personal Details row of the caller's key exist and carry the
    same username and the same email. *)
Theorem update_profile_keeps_in_sync :
  forall make_password session_auth_hash authenticate LOGIN_URL
         EditProfileForm_clean request id w u details cd response w',
    user request = Some u ->
    method request = "POST" ->
    get_object_or_404
      (personal_details (db w))
      (fun p => String.eqb (PersonalDetails.username p) (User.username u))
    = Ok details ->
    EditProfileForm_clean (db w) details (POST request) = Some cd ->
    update_profile make_password session_auth_hash authenticate LOGIN_URL
                   EditProfileForm_clean request id w
    = (Ok response, w') ->
    (exists a p,
        In a (users (db w')) /\ User.id a = User.id u
        /\ In p (personal_details (db w'))
        /\ PersonalDetails.id p = PersonalDetails.id details)
    /\ (forall a p,
          In a (users (db w')) -> User.id a = User.id u ->
          In p (personal_details (db w')) ->
          PersonalDetails.id p = PersonalDetails.id details ->
          User.username a = PersonalDetails.username p
          /\ User.email a = PersonalDetails.email p
          /\ User.username a = ProfileData.username cd
          /\ User.email a = ProfileData.email cd).
Proof.
  intros until w'. intros Hu Hpost Hdetails Hvalid Hrun.
  set (account :=
         User.mk (User.id u) (ProfileData.username cd) (User.first_name u)
                 (User.last_name u) (ProfileData.email cd)
                 (if truthy (ProfileData.new_password cd)
                  then make_password (ProfileData.new_password cd)
                  else User.password u)
                 (User.is_active u)).
  destruct (save_user account
              (save_personal_details (EditProfileForm_save cd details)
                                     (db w))) as [d'|e] eqn:Hsave.
  - rewrite (update_profile_saved make_password session_auth_hash
               authenticate LOGIN_URL EditProfileForm_clean request id w u
               details cd Hu Hpost Hdetails Hvalid d' Hsave) in Hrun.
    injection Hrun as _ <-. cbn [db].
    apply save_user_Ok in Hsave. destruct Hsave as [_ ->].
    cbn [users personal_details save_personal_details]. split.
    + exists account, (EditProfileForm_save cd details).
      repeat split; try apply in_save_self.
    + intros a p Ha Hka Hp Hkp.
      apply (in_save_same User.id) in Ha; [|exact Hka].
      apply (in_save_same PersonalDetails.id) in Hp; [|exact Hkp].
      subst a p. repeat split.
  - pose proof (update_profile_refused make_password session_auth_hash
                  authenticate LOGIN_URL EditProfileForm_clean request id w u
                  details cd Hu Hpost Hdetails Hvalid e Hsave) as Hraise.
    rewrite Hrun in Hraise. discriminate Hraise.
Qed.

Lemma update_profile_keeps_in_sync_witness :
  User.username
    (User.mk 2 "rob" "Bob" "Baker" "bob@new.test" "pbkdf2$b-secret" true)
  = PersonalDetails.username
      (PersonalDetails.mk 12 "Robert" "Baker" "rob" "bob@new.test"
                          "pbkdf2$b-secret" 22)
  /\ User.email
       (User.mk 2 "rob" "Bob" "Baker" "bob@new.test" "pbkdf2$b-secret" true)
     = PersonalDetails.email
         (PersonalDetails.mk 12 "Robert" "Baker" "rob" "bob@new.test"
                             "pbkdf2$b-secret" 22)
  /\ User.username
       (User.mk 2 "rob" "Bob" "Baker" "bob@new.test" "pbkdf2$b-secret" true)
     = "rob"
  /\ User.email
       (User.mk 2 "rob" "Bob" "Baker" "bob@new.test" "pbkdf2$b-secret" true)
     = "bob@new.test".
Proof.
  destruct (update_profile_keeps_in_sync
              Sample.make_password Sample.session_auth_hash
              Sample.authenticate Sample.LOGIN_URL
              Sample.EditProfileForm_clean
              (Sample.post_request Sample.bob
                 [("first_name", "Robert"); ("last_name", "Baker");
                  ("username", "rob"); ("email", "bob@new.test")])
              12 (Sample.world_of Sample.bob) Sample.bob
              Sample.bob_details
              (ProfileData.mk "Robert" "Baker" "rob" "bob@new.test" "")
              _ _ eq_refl eq_refl eq_refl eq_refl eq_refl)
    as [_ Hsync].
  apply Hsync; try reflexivity; right; left; reflexivity.
Defined.

(** C10.  The profile handlers ignore the [id] of the URL.  Viewing the
    profile gives the same response and world for any two ids, and the
    records shown are those the lookup helpers find for the session user's
    username.  Editing the profile gives the same world for any two ids and
    the same response up to the echoed id; it resolves the Personal Details
    row by the session user's username and, besides that row and the session
    user's account, writes nothing. *)
Theorem profile_handlers_ignore_id :
  forall make_password session_auth_hash authenticate LOGIN_URL
         EditProfileForm_clean request id1 id2 w,
    get_profile_data LOGIN_URL request id1 w
    = get_profile_data LOGIN_URL request id2 w
    /\ (forall u template personal_details job_details performance w',
          user request = Some u ->
          get_profile_data LOGIN_URL request id1 w
          = (Ok (Render template
                        (ProfileContext personal_details job_details
                                        performance)),
             w') ->
          get_personal_details_by_username (db w) (User.username u)
          = Ok personal_details
          /\ get_job_details_by_username (db w) (User.username u)
             = Ok job_details
          /\ get_performance_by_username (db w) (User.username u)
             = Ok performance
          /\ w' = w)
    /\ snd (update_profile make_password session_auth_hash authenticate
                           LOGIN_URL EditProfileForm_clean request id1 w)
       = snd (update_profile make_password session_auth_hash authenticate
                             LOGIN_URL EditProfileForm_clean request id2 w)
    /\ without_id
         (fst (update_profile make_password session_auth_hash authenticate
                              LOGIN_URL EditProfileForm_clean request id1 w))
       = without_id
           (fst (update_profile make_password session_auth_hash authenticate
                                LOGIN_URL EditProfileForm_clean request id2
                                w))
    /\ (forall u,
          user request = Some u ->
          let d' :=
            db (snd (update_profile make_password session_auth_hash
                                    authenticate LOGIN_URL
                                    EditProfileForm_clean request id1 w)) in
          job_details d' = job_details (db w)
          /\ performances d' = performances (db w)
          /\ (forall a, In a (users d') -> User.id a <> User.id u ->
                        In a (users (db w)))
          /\ match get_object_or_404
                     (personal_details (db w))
                     (fun p => String.eqb (PersonalDetails.username p)
                                          (User.username u)) with
             | Ok details =>
                 forall p, In p (personal_details d') ->
                           PersonalDetails.id p <> PersonalDetails.id details ->
                           In p (personal_details (db w))
             | Raise _ => d' = db w
             end).
Proof.
  intros. split; [reflexivity|]. split.
  { intros u template pd jd perf w' Hu.
    unfold get_profile_data, login_required. rewrite Hu. run_handler.
    destruct (get_personal_details_by_username _ _) as [pd'|];
      [|discriminate].
    destruct (get_job_details_by_username _ _) as [jd'|]; [|discriminate].
    destruct (get_performance_by_username _ _) as [perf'|]; [|discriminate].
    intros H. injection H as _ <- <- <- <-. now repeat split. }
  unfold update_profile, login_required.
  destruct (user request) as [u|]; [|repeat split; intros; discriminate].
  split; [|split].
  1, 2: run_handler;
    (destruct (get_object_or_404 _ _); [|reflexivity]);
    (destruct (String.eqb _ _); [|reflexivity]);
    cbn [db session flash];
    (destruct (EditProfileForm_clean _ _ _); [|reflexivity]);
    destruct (truthy _); run_handler;
    cbn [User.id User.username User.first_name User.last_name User.email
         User.password User.is_active];
    destruct (save_user _ _); try reflexivity;
    unfold login; cbn [db session flash];
    destruct (authenticate _ _ _); reflexivity.
  intros u' Hu'. injection Hu' as <-. cbv zeta. run_handler.
  destruct (get_object_or_404 _ _) as [details|e]; [|now repeat split].
  destruct (String.eqb (method request) "POST"); [|now repeat split].
  cbn [db session flash].
  destruct (EditProfileForm_clean _ _ _) as [cd|]; [|now repeat split].
  assert (Hdetails :
    forall d, job_details d = job_details (db w) ->
              performances d = performances (db w) ->
              users d = users (db w) ->
              personal_details d
              = save PersonalDetails.id (EditProfileForm_save cd details)
                     (personal_details (db w)) ->
    job_details d = job_details (db w)
    /\ performances d = performances (db w)
    /\ (forall a, In a (users d) -> User.id a <> User.id u ->
                  In a (users (db w)))
    /\ (forall p, In p (personal_details d) ->
                  PersonalDetails.id p <> PersonalDetails.id details ->
                  In p (personal_details (db w)))).
  { intros d Hj Hp Hus Hpd. repeat split; try assumption.
    - intros a Ha _. now rewrite <- Hus.
    - intros p Hin Hk. rewrite Hpd in Hin.
      apply (in_save_other PersonalDetails.id) in Hin; assumption. }
  assert (Hboth :
    forall a d, User.id a = User.id u ->
      save_user a (save_personal_details (EditProfileForm_save cd details)
                                         (db w)) = Ok d ->
    job_details d = job_details (db w)
    /\ performances d = performances (db w)
    /\ (forall x, In x (users d) -> User.id x <> User.id u ->
                  In x (users (db w)))
    /\ (forall p, In p (personal_details d) ->
                  PersonalDetails.id p <> PersonalDetails.id details ->
                  In p (personal_details (db w)))).
  { intros a d Hka Hsave. apply save_user_Ok in Hsave.
    destruct Hsave as [_ ->].
    cbn [users personal_details job_details performances
         save_personal_details].
    repeat split.
    - intros x Hx Hk. rewrite <- Hka in Hk.
      apply (in_save_other User.id) in Hx; assumption.
    - intros p Hin Hk.
      apply (in_save_other PersonalDetails.id) in Hin; assumption. }
  destruct (truthy (ProfileData.new_password cd)); run_handler;
    cbn [User.id User.username User.first_name User.last_name User.email
         User.password User.is_active];
    (destruct (save_user _ _) as [d'|e] eqn:Hsave;
     [|cbn [snd db]; now apply Hdetails]).
  - unfold login. cbn [db session flash].
    destruct (authenticate d' _ _); cbn [snd db];
      refine (Hboth _ _ _ Hsave); reflexivity.
  - cbn [snd db]. refine (Hboth _ _ _ Hsave); reflexivity.
Qed.

(** C6.  A valid edit of an employee by an authorized manager: the Job
    Details row is saved with the form's role and department; when the row
    links a Performance, that Performance is saved with the review date,
    rating and comments of the cleaned data, and when it links none the
    Performance table is left alone; accounts and Personal Details are not
    written; the handler answers with the success message and the redirect
    to the list. *)
Theorem update_employee_saves :
  forall LOGIN_URL has_manager_role manager_denied EditEmployeeForm_clean
         request emp_id w caller self_job_details target_details target_job
         target_performance cd,
    user request = Some caller ->
    has_manager_role (db w) caller = true ->
    method request = "POST" ->
    get_job_details_by_username (db w) (User.username caller)
      = Ok self_job_details ->
    get_object_or_404 (personal_details (db w))
                      (fun p => PersonalDetails.job_details p =? emp_id)
      = Ok target_details ->
    get_object_or_404 (job_details (db w))
                      (fun j => JobDetails.id j =? emp_id)
      = Ok target_job ->
    related_performance (db w) target_job = Ok target_performance ->
    (JobDetails.role target_job = "ADM" ->
     JobDetails.role self_job_details = "ADM") ->
    EditEmployeeForm_clean (db w) target_job (POST request) = Some cd ->
    let saved_job :=
      JobDetails.mk (JobDetails.id target_job) (EmployeeData.role cd)
                    (EmployeeData.department cd)
                    (JobDetails.performance target_job) in
    let saved_performance x :=
      Performance.mk (Performance.id x) (EmployeeData.review_date cd)
                     (EmployeeData.rating cd) (EmployeeData.comments cd) in
    exists d',
      update_employee LOGIN_URL has_manager_role manager_denied
                      EditEmployeeForm_clean request emp_id w
      = (Ok (Redirect "list"),
         mkWorld d' (session w)
                 [mkMessage SUCCESS "Profile updated successfully!"])
      /\ users d' = users (db w)
      /\ personal_details d' = personal_details (db w)
      /\ job_details d' = save JobDetails.id saved_job (job_details (db w))
      /\ In saved_job (job_details d')
      /\ match target_performance with
         | Some x =>
             performances d'
             = save Performance.id (saved_performance x)
                    (performances (db w))
             /\ In (saved_performance x) (performances d')
         | None => performances d' = performances (db w)
         end.
Proof.
  intros until cd.
  intros Hu Hm Hpost Hs Hpd Hjd Hperf Hauth Hvalid. cbv zeta.
  assert (Hallowed :
            String.eqb (JobDetails.role target_job) "ADM"
            && negb (String.eqb (JobDetails.role self_job_details) "ADM")
            = false).
  { destruct (String.eqb (JobDetails.role target_job) "ADM") eqn:E;
      [|reflexivity].
    apply String.eqb_eq in E. apply Hauth in E.
    apply String.eqb_eq in E. now rewrite E. }
  unfold update_employee, login_required, manager_required.
  rewrite Hu, Hm. run_handler.
  rewrite Hs, Hpd, Hjd, Hperf, Hallowed, Hpost, String.eqb_refl.
  cbn [db session flash]. rewrite Hvalid.
  destruct target_performance as [x|]; cbn [db session flash app];
    eexists; (split; [reflexivity|]);
    cbn [users personal_details job_details performances
         save_job_details save_performance];
    repeat split; apply in_save_self.
Qed.

Lemma update_employee_saves_witness :
  update_employee Sample.LOGIN_URL Sample.has_manager_role
                  Sample.manager_denied Sample.EditEmployeeForm_clean
                  (Sample.post_request Sample.bob
                     [("role", "MGR"); ("department", "IT");
                      ("comments", "promoted")])
                  23 (Sample.world_of Sample.bob)
  = (Ok (Redirect "list"),
     mkWorld (mkDB (users Sample.database)
                   (personal_details Sample.database)
                   [Sample.alice_job; Sample.bob_job;
                    JobDetails.mk 23 "MGR" "IT" (Some 33)]
                   [Performance.empty 31; Performance.empty 32;
                    Performance.mk 33 (Some (mkDate 2024 5 17)) (Some 4)
                                   (Some "promoted")])
             (Sample.session_of Sample.bob)
             [mkMessage SUCCESS "Profile updated successfully!"]).
Proof.
  destruct (update_employee_saves
              Sample.LOGIN_URL Sample.has_manager_role Sample.manager_denied
              Sample.EditEmployeeForm_clean
              (Sample.post_request Sample.bob
                 [("role", "MGR"); ("department", "IT");
                  ("comments", "promoted")])
              23 (Sample.world_of Sample.bob) Sample.bob Sample.bob_job
              Sample.carol_details Sample.carol_job
              (Some (Performance.mk 33 (Some (mkDate 2023 11 2)) (Some 3)
                                    (Some "steady")))
              (EmployeeData.mk "MGR" "IT" (Some (mkDate 2024 5 17)) (Some 4)
                               (Some "promoted"))
              eq_refl eq_refl eq_refl eq_refl eq_refl eq_refl eq_refl
              ltac:(intros H; discriminate H) eq_refl)
    as (d' & Hrun & Hus & Hps & Hjobs & _ & Hperf & _).
  rewrite Hrun. destruct d' as [us ps js xs].
  cbn [users personal_details job_details performances]
    in Hus, Hps, Hjobs, Hperf.
  subst us ps js xs. reflexivity.
Defined.

(** ** Runs on the sample installation *)

(** The administrator sees every employee, herself included. *)
Example administrator_lists_everyone :
  employees_list Sample.LOGIN_URL Sample.has_manager_role
                 Sample.manager_denied (Sample.get_request Sample.alice [])
                 (Sample.world_of Sample.alice)
  = (Ok (Render "main/list.html"
                (ListContext [Sample.alice_details; Sample.bob_details;
                              Sample.carol_details]
                             21)),
     Sample.world_of Sample.alice).
Proof. reflexivity. Qed.

(** The manager searching for the administrator's department finds nobody:
    the only match is hidden from him. *)
Example manager_search_hides_administrator :
  employees_list Sample.LOGIN_URL Sample.has_manager_role
                 Sample.manager_denied
                 (Sample.get_request Sample.bob [("search", "it")])
                 (Sample.world_of Sample.bob)
  = (Ok (Render "main/list.html" (ListContext [] 22)),
     Sample.world_of Sample.bob).
Proof. reflexivity. Qed.

(** The clerk has no manager role: the guard answers before the body. *)
Example clerk_is_denied :
  delete_employee Sample.LOGIN_URL Sample.has_manager_role
                  Sample.manager_denied Sample.DEPARTMENT_CHOICES
                  (Sample.post_request Sample.carol []) 22
                  (Sample.world_of Sample.carol)
  = (Ok Sample.manager_denied, Sample.world_of Sample.carol).
Proof. reflexivity. Qed.

(** A profile edit that takes another account's username: the Personal
    Details row is already written when the account is refused. *)
Example update_profile_username_collision :
  update_profile Sample.make_password Sample.session_auth_hash
                 Sample.authenticate Sample.LOGIN_URL
                 Sample.EditProfileForm_clean
                 (Sample.post_request Sample.bob
                    [("first_name", "Bob"); ("last_name", "Baker");
                     ("username", "carol"); ("email", "bob@corp.test")])
                 12 (Sample.world_of Sample.bob)
  = (Raise IntegrityError,
     mkWorld (mkDB (users Sample.database)
                   [Sample.alice_details;
                    PersonalDetails.mk 12 "Bob" "Baker" "carol"
                                       "bob@corp.test" "pbkdf2$b-secret" 22;
                    Sample.carol_details]
                   (job_details Sample.database)
                   (performances Sample.database))
             (Sample.session_of Sample.bob) []).
Proof. reflexivity. Qed.

(** * Further properties of the handlers *)

Ltac case_on_scrutinee :=
  match goal with
  | |- context [match ?x with _ => _ end] =>
      lazymatch x with
      | context [match _ with _ => _ end] => fail
      | _ => destruct x
      end
  end.

(** ** Guards and read-only handlers *)

(** X1.  An anonymous request to any of the six guarded handlers is answered
    with the redirect to the login page, and nothing is read or written. *)
Theorem anonymous_is_sent_to_login :
  forall make_password session_auth_hash authenticate LOGIN_URL
         has_manager_role manager_denied DEPARTMENT_CHOICES
         EditProfileForm_clean EditEmployeeForm_clean request id w,
    user request = None ->
    home LOGIN_URL request w = (Ok (Redirect LOGIN_URL), w)
    /\ get_profile_data LOGIN_URL request id w = (Ok (Redirect LOGIN_URL), w)
    /\ update_profile make_password session_auth_hash authenticate LOGIN_URL
                      EditProfileForm_clean request id w
       = (Ok (Redirect LOGIN_URL), w)
    /\ employees_list LOGIN_URL has_manager_role manager_denied request w
       = (Ok (Redirect LOGIN_URL), w)
    /\ update_employee LOGIN_URL has_manager_role manager_denied
                       EditEmployeeForm_clean request id w
       = (Ok (Redirect LOGIN_URL), w)
    /\ delete_employee LOGIN_URL has_manager_role manager_denied
                       DEPARTMENT_CHOICES request id w
       = (Ok (Redirect LOGIN_URL), w).
Proof.
  intros until w. intros Hanon.
  unfold home, get_profile_data, update_profile, employees_list,
    update_employee, delete_employee, login_required.
  rewrite Hanon. repeat split.
Qed.

Lemma anonymous_is_sent_to_login_witness :
  update_profile Sample.make_password Sample.session_auth_hash
                 Sample.authenticate Sample.LOGIN_URL
                 Sample.EditProfileForm_clean
                 (mkRequest "POST" None []
                    [("username", "mallory"); ("new_password", "x")])
                 12 (mkWorld Sample.database (mkSession None "") [])
  = (Ok (Redirect "/login/"),
     mkWorld Sample.database (mkSession None "") [])
  /\ delete_employee Sample.LOGIN_URL Sample.has_manager_role
                     Sample.manager_denied Sample.DEPARTMENT_CHOICES
                     (mkRequest "POST" None []
                        [("username", "mallory"); ("new_password", "x")])
                     12 (mkWorld Sample.database (mkSession None "") [])
     = (Ok (Redirect "/login/"),
        mkWorld Sample.database (mkSession None "") []).
Proof.
  destruct (anonymous_is_sent_to_login
              Sample.make_password Sample.session_auth_hash
              Sample.authenticate Sample.LOGIN_URL Sample.has_manager_role
              Sample.manager_denied Sample.DEPARTMENT_CHOICES
              Sample.EditProfileForm_clean Sample.EditEmployeeForm_clean
              (mkRequest "POST" None []
                 [("username", "mallory"); ("new_password", "x")])
              12 (mkWorld Sample.database (mkSession None "") [])
              eq_refl)
    as (_ & _ & Hprofile & _ & _ & Hdelete).
  split; assumption.
Defined.

(** X2.  The landing page, the home page, the profile page and the employee
    list never write: whatever the request and whatever the outcome, lookup
    errors included, the database, the session and the flash messages are
    those the handler was given. *)
Theorem read_handlers_write_nothing :
  forall LOGIN_URL has_manager_role manager_denied request id w,
    snd (index request w) = w
    /\ snd (home LOGIN_URL request w) = w
    /\ snd (get_profile_data LOGIN_URL request id w) = w
    /\ snd (employees_list LOGIN_URL has_manager_role manager_denied
                           request w) = w.
Proof.
  intros. unfold index, home, get_profile_data, employees_list,
    login_required, manager_required.
  repeat split; run_handler; repeat case_on_scrutinee; reflexivity.
Qed.

(** ** Registration *)

Lemma filter_appended {R : Type} (p : R -> bool) (rows : list R) (r : R) :
  (forall x, In x rows -> p x = false) -> p r = true ->
  filter p (rows ++ [r]) = [r].
Proof.
  intros Hnone Hr. rewrite filter_app, (filter_none _ _ Hnone).
  cbn [filter app]. now rewrite Hr.
Qed.

Lemma username_taken_nobody (d : DB) (name : string) :
  username_taken d name None = false ->
  forall x, In x (users d) -> String.eqb (User.username x) name = false.
Proof.
  unfold username_taken. intros H x Hx.
  destruct (String.eqb (User.username x) name) eqn:E; [|reflexivity].
  rewrite <- H. symmetry. apply existsb_exists. exists x.
  split; [assumption|]. now rewrite E.
Qed.

Lemma RegisterForm_clean_Some clean_fields (d : DB) (data : QueryDict)
  (cd : RegisterData.t) :
  RegisterForm_clean clean_fields d data = Some cd ->
  clean_fields data = Some cd
  /\ username_taken d (RegisterData.username cd) None = false.
Proof.
  unfold RegisterForm_clean.
  destruct (clean_fields data) as [cd'|]; [|discriminate].
  destruct (username_taken d (RegisterData.username cd') None) eqn:E;
    [discriminate|].
  destruct (existsb _ (users d)); [discriminate|].
  intros H. injection H as <-. now split.
Qed.

(** The world a valid registration leaves. *)
Lemma user_register_run make_password clean_fields request w cd :
  method request = "POST" ->
  RegisterForm_clean clean_fields (db w) (POST request) = Some cd ->
  user_register make_password clean_fields request w
  = (Ok (Redirect "/"),
     mkWorld
       (mkDB (users (db w)
              ++ [RegisterForm_save make_password cd
                                    (next_id User.id (users (db w)))])
             (personal_details (db w)
              ++ [PersonalDetails.mk
                    (next_id PersonalDetails.id (personal_details (db w)))
                    (RegisterData.first_name cd) (RegisterData.last_name cd)
                    (RegisterData.username cd) (RegisterData.email cd)
                    (make_password (RegisterData.password cd))
                    (next_id JobDetails.id (job_details (db w)))])
             (job_details (db w)
              ++ [JobDetails.mk
                    (next_id JobDetails.id (job_details (db w))) "" ""
                    (Some (next_id Performance.id (performances (db w))))])
             (performances (db w)
              ++ [Performance.empty
                    (next_id Performance.id (performances (db w)))]))
       (session w)
       (flash w ++ [mkMessage SUCCESS "Registration successful!"])).
Proof.
  intros Hpost Hvalid.
  destruct (RegisterForm_clean_Some _ _ _ _ Hvalid) as [_ Hfree].
  unfold user_register. rewrite Hpost, String.eqb_refl.
  run_handler. rewrite Hvalid.
  unfold insert_user, create_performance, create_job_details,
    create_personal_details.
  cbn [db session flash users personal_details job_details performances].
  unfold RegisterForm_save at 1. cbn [User.username].
  rewrite Hfree. reflexivity.
Qed.

(** X3.  A submitted registration that the form rejects persists nothing:
    the four tables and the session are unchanged, one error message is
    appended to the messages already waiting, and the form is shown again
    with the submitted data. *)
Theorem user_register_rejected :
  forall make_password RegisterForm_clean_fields request w,
    method request = "POST" ->
    RegisterForm_clean RegisterForm_clean_fields (db w) (POST request)
      = None ->
    user_register make_password RegisterForm_clean_fields request w
    = (Ok (Render "register/register.html"
                  (RegisterContext (Bound tt (POST request) None))),
       mkWorld (db w) (session w)
               (flash w
                ++ [mkMessage ERROR
                              "There was an error with your submission."])).
Proof.
  intros make_password clean_fields request w Hpost Hinvalid.
  unfold user_register. rewrite Hpost, String.eqb_refl.
  run_handler. now rewrite Hinvalid.
Qed.

Lemma user_register_rejected_witness :
  user_register Sample.make_password Sample.RegisterForm_clean_fields
                (mkRequest "POST" None []
                   [("username", "bob"); ("email", "second@corp.test");
                    ("password1", "s"); ("password2", "s")])
                (mkWorld Sample.database (mkSession None "") [])
  = (Ok (Render "register/register.html"
                (RegisterContext
                   (Bound tt
                          [("username", "bob"); ("email", "second@corp.test");
                           ("password1", "s"); ("password2", "s")]
                          None))),
     mkWorld Sample.database (mkSession None "")
             [mkMessage ERROR "There was an error with your submission."]).
Proof.
  exact (user_register_rejected
           Sample.make_password Sample.RegisterForm_clean_fields
           (mkRequest "POST" None []
              [("username", "bob"); ("email", "second@corp.test");
               ("password1", "s"); ("password2", "s")])
           (mkWorld Sample.database (mkSession None "") [])
           eq_refl eq_refl).
Defined.


Lemma get_appended {R : Type} (p : R -> bool) (rows : list R) (r : R) :
  (forall x, In x rows -> p x = false) -> p r = true ->
  get (rows ++ [r]) p = Ok r.
Proof.
  intros Hnone Hr. unfold get. now rewrite (filter_appended _ _ _ Hnone Hr).
Qed.

Lemma next_id_unused {R : Type} (pk : R -> Z) (rows : list R) (x : R) :
  In x rows -> (pk x =? next_id pk rows) = false.
Proof.
  intros Hx. apply Z.eqb_neq. pose proof (next_id_above pk rows x Hx). lia.
Qed.

(** X5.  Registration followed by login: after a valid registration, the
    default backend authenticates the submitted username with the submitted
    password and returns the account that was created. *)
Theorem registered_user_can_authenticate :
  forall make_password check_password RegisterForm_clean_fields request w cd,
    (forall raw, check_password raw (make_password raw) = true) ->
    method request = "POST" ->
    RegisterForm_clean RegisterForm_clean_fields (db w) (POST request)
      = Some cd ->
    ModelBackend_authenticate
      check_password
      (db (snd (user_register make_password RegisterForm_clean_fields
                              request w)))
      (RegisterData.username cd) (RegisterData.password cd)
    = Some (RegisterForm_save make_password cd
                              (next_id User.id (users (db w)))).
Proof.
  intros make_password check_password clean_fields request w cd
         Hcheck Hpost Hvalid.
  rewrite (user_register_run _ _ _ _ _ Hpost Hvalid). cbn [snd db].
  destruct (RegisterForm_clean_Some _ _ _ _ Hvalid) as [_ Hfree].
  unfold ModelBackend_authenticate. cbn [users].
  rewrite (get_appended
             (fun u => String.eqb (User.username u) (RegisterData.username cd))
             (users (db w))
             (RegisterForm_save make_password cd
                                (next_id User.id (users (db w))))).
  - unfold RegisterForm_save. cbn [User.password User.is_active].
    now rewrite Hcheck.
  - exact (username_taken_nobody _ _ Hfree).
  - apply String.eqb_refl.
Qed.

Lemma registered_user_can_authenticate_witness :
  ModelBackend_authenticate
    Sample.check_password
    (db (snd (user_register
                Sample.make_password Sample.RegisterForm_clean_fields
                (mkRequest "POST" None []
                   [("first_name", "Dan"); ("last_name", "Dale");
                    ("username", "dan"); ("email", "dan@corp.test");
                    ("password1", "d-secret"); ("password2", "d-secret")])
                (mkWorld Sample.database (mkSession None "") []))))
    "dan" "d-secret"
  = Some (User.mk 4 "dan" "Dan" "Dale" "dan@corp.test" "pbkdf2$d-secret"
                  true).
Proof.
  exact (registered_user_can_authenticate
           Sample.make_password Sample.check_password
           Sample.RegisterForm_clean_fields
           (mkRequest "POST" None []
              [("first_name", "Dan"); ("last_name", "Dale");
               ("username", "dan"); ("email", "dan@corp.test");
               ("password1", "d-secret"); ("password2", "d-secret")])
           (mkWorld Sample.database (mkSession None "") [])
           (RegisterData.mk "Dan" "Dale" "dan" "dan@corp.test" "d-secret")
           sample_check_password eq_refl eq_refl).
Defined.

(** X6.  Registration followed by the first pages: when no Personal Details
    row held the username before, the home page and the profile page of the
    registered user resolve exactly the rows the registration created: the
    empty Job Details, the empty Performance and the submitted first name. *)
Theorem registered_user_reaches_home :
  forall make_password RegisterForm_clean_fields LOGIN_URL request w cd
         next_request id,
    method request = "POST" ->
    RegisterForm_clean RegisterForm_clean_fields (db w) (POST request)
      = Some cd ->
    (forall p, In p (personal_details (db w)) ->
               PersonalDetails.username p <> RegisterData.username cd) ->
    user next_request
    = Some (RegisterForm_save make_password cd
                              (next_id User.id (users (db w)))) ->
    let w' := snd (user_register make_password RegisterForm_clean_fields
                                 request w) in
    let job :=
      JobDetails.mk (next_id JobDetails.id (job_details (db w))) "" ""
                    (Some (next_id Performance.id (performances (db w)))) in
    let details :=
      PersonalDetails.mk
        (next_id PersonalDetails.id (personal_details (db w)))
        (RegisterData.first_name cd) (RegisterData.last_name cd)
        (RegisterData.username cd) (RegisterData.email cd)
        (make_password (RegisterData.password cd)) (JobDetails.id job) in
    home LOGIN_URL next_request w'
    = (Ok (Render "main/home.html"
                  (HomeContext job (RegisterData.first_name cd))),
       w')
    /\ get_profile_data LOGIN_URL next_request id w'
       = (Ok (Render "main/profile.html"
                     (ProfileContext
                        details job
                        (Some (Performance.empty
                                 (next_id Performance.id
                                          (performances (db w))))))),
          w').
Proof.
  intros make_password clean_fields LOGIN_URL request w cd next_request id
         Hpost Hvalid Hnew Hnext.
  cbv zeta. rewrite (user_register_run _ _ _ _ _ Hpost Hvalid). cbn [snd].
  set (job := JobDetails.mk (next_id JobDetails.id (job_details (db w)))
                            "" ""
                            (Some (next_id Performance.id
                                           (performances (db w))))).
  set (details := PersonalDetails.mk _ _ _ _ _ _ _).
  set (d' := mkDB _ _ _ _).
  assert (Hpd : get_personal_details_by_username d' (RegisterData.username cd)
                = Ok details).
  { unfold get_personal_details_by_username, get_object_or_404.
    cbn [personal_details d']. rewrite get_appended; [reflexivity| |].
    - intros p Hp. apply String.eqb_neq. now apply Hnew.
    - apply String.eqb_refl. }
  assert (Hjd : get_job_details_by_username d' (RegisterData.username cd)
                = Ok job).
  { unfold get_job_details_by_username. rewrite Hpd.
    unfold related_job_details. cbn [job_details d'].
    apply get_appended.
    - intros j Hj. exact (next_id_unused JobDetails.id _ j Hj).
    - apply Z.eqb_refl. }
  assert (Hperf : get_performance_by_username d' (RegisterData.username cd)
                  = Ok (Some (Performance.empty
                                (next_id Performance.id
                                         (performances (db w)))))).
  { unfold get_performance_by_username. rewrite Hjd.
    unfold related_performance. cbn [JobDetails.performance job].
    cbn [performances d']. rewrite get_appended; [reflexivity| |].
    - intros x Hx. exact (next_id_unused Performance.id _ x Hx).
    - apply Z.eqb_refl. }
  unfold home, get_profile_data, login_required. rewrite Hnext.
  unfold RegisterForm_save. cbn [User.username]. run_handler.
  rewrite Hpd, Hjd, Hperf. split; reflexivity.
Qed.

Lemma registered_user_reaches_home_witness :
  home Sample.LOGIN_URL
       (Sample.get_request
          (User.mk 4 "dan" "Dan" "Dale" "dan@corp.test" "pbkdf2$d-secret"
                   true) [])
       (snd (user_register
               Sample.make_password Sample.RegisterForm_clean_fields
               (mkRequest "POST" None []
                  [("first_name", "Dan"); ("last_name", "Dale");
                   ("username", "dan"); ("email", "dan@corp.test");
                   ("password1", "d-secret"); ("password2", "d-secret")])
               (mkWorld Sample.database (mkSession None "") [])))
  = (Ok (Render "main/home.html"
                (HomeContext (JobDetails.mk 24 "" "" (Some 34)) "Dan")),
     snd (user_register
            Sample.make_password Sample.RegisterForm_clean_fields
            (mkRequest "POST" None []
               [("first_name", "Dan"); ("last_name", "Dale");
                ("username", "dan"); ("email", "dan@corp.test");
                ("password1", "d-secret"); ("password2", "d-secret")])
            (mkWorld Sample.database (mkSession None "") []))).
Proof.
  refine (proj1 (registered_user_reaches_home
                   Sample.make_password Sample.RegisterForm_clean_fields
                   Sample.LOGIN_URL
                   (mkRequest "POST" None []
                      [("first_name", "Dan"); ("last_name", "Dale");
                       ("username", "dan"); ("email", "dan@corp.test");
                       ("password1", "d-secret"); ("password2", "d-secret")])
                   (mkWorld Sample.database (mkSession None "") [])
                   (RegisterData.mk "Dan" "Dale" "dan" "dan@corp.test"
                                    "d-secret")
                   (Sample.get_request
                      (User.mk 4 "dan" "Dan" "Dale" "dan@corp.test"
                               "pbkdf2$d-secret" true) [])
                   0 eq_refl eq_refl _ eq_refl)).
  intros p [<-|[<-|[<-|[]]]]; discriminate.
Defined.

(** ** Editing the profile: what is not written *)

(** X7.  The profile form without valid data.  A request that is not a POST
    gets the form filled from the caller's Personal Details; a POST that the
    form rejects gets the form back with one error message.  In both cases
    the database and the session are unchanged and the messages that were
    waiting are gone. *)
Theorem update_profile_without_valid_data :
  forall make_password session_auth_hash authenticate LOGIN_URL
         EditProfileForm_clean request id w u details,
    user request = Some u ->
    get_object_or_404
      (personal_details (db w))
      (fun p => String.eqb (PersonalDetails.username p) (User.username u))
    = Ok details ->
    (method request <> "POST" ->
     update_profile make_password session_auth_hash authenticate LOGIN_URL
                    EditProfileForm_clean request id w
     = (Ok (Render "main/edit-profile.html"
                   (EditProfileContext (Unbound details) id)),
        mkWorld (db w) (session w) []))
    /\ (method request = "POST" ->
        EditProfileForm_clean (db w) details (POST request) = None ->
        update_profile make_password session_auth_hash authenticate LOGIN_URL
                       EditProfileForm_clean request id w
        = (Ok (Render "main/edit-profile.html"
                      (EditProfileContext
                         (Bound details (POST request) None) id)),
           mkWorld (db w) (session w)
                   [mkMessage ERROR
                              "There was an error with your submission."])).
Proof.
  intros until details. intros Hu Hdetails.
  unfold update_profile, login_required. rewrite Hu. run_handler.
  rewrite Hdetails. split.
  - intros Hget. apply String.eqb_neq in Hget. now rewrite Hget.
  - intros Hpost Hinvalid. rewrite Hpost, String.eqb_refl.
    cbn [db session flash]. now rewrite Hinvalid.
Qed.

Lemma update_profile_without_valid_data_witness :
  update_profile Sample.make_password Sample.session_auth_hash
                 Sample.authenticate Sample.LOGIN_URL
                 Sample.EditProfileForm_clean
                 (Sample.post_request Sample.carol [("email", "c@new.test")])
                 13 (Sample.world_of Sample.carol)
  = (Ok (Render "main/edit-profile.html"
                (EditProfileContext
                   (Bound Sample.carol_details [("email", "c@new.test")] None)
                   13)),
     mkWorld Sample.database (Sample.session_of Sample.carol)
             [mkMessage ERROR "There was an error with your submission."]).
Proof.
  exact (proj2 (update_profile_without_valid_data
                  Sample.make_password Sample.session_auth_hash
                  Sample.authenticate Sample.LOGIN_URL
                  Sample.EditProfileForm_clean
                  (Sample.post_request Sample.carol
                     [("email", "c@new.test")])
                  13 (Sample.world_of Sample.carol) Sample.carol
                  Sample.carol_details eq_refl eq_refl)
               eq_refl eq_refl).
Defined.

(** X8.  A session user without a resolvable Personal Details row: when no
    row carries the session username the profile edit raises the not-found
    error, and when several do it raises the several-rows error; either way
    before the form is looked at, with the database and the session
    unchanged and the waiting messages already cleared. *)
Theorem update_profile_unresolved :
  forall make_password session_auth_hash authenticate LOGIN_URL
         EditProfileForm_clean request id w u,
    user request = Some u ->
    List.length (filter (fun p => String.eqb (PersonalDetails.username p)
                                             (User.username u))
                        (personal_details (db w))) <> 1%nat ->
    update_profile make_password session_auth_hash authenticate LOGIN_URL
                   EditProfileForm_clean request id w
    = (Raise (if existsb (fun p => String.eqb (PersonalDetails.username p)
                                              (User.username u))
                         (personal_details (db w))
              then MultipleObjectsReturned else Http404),
       mkWorld (db w) (session w) []).
Proof.
  intros until u. intros Hu Hcount.
  unfold update_profile, login_required. rewrite Hu. run_handler.
  unfold get_object_or_404, get.
  induction (personal_details (db w)) as [|p rows IH];
    cbn [filter existsb] in *; [reflexivity|].
  destruct (String.eqb (PersonalDetails.username p) (User.username u));
    cbn [orb].
  - destruct (filter _ rows) as [|q rest]; [|reflexivity].
    cbn [List.length] in Hcount. congruence.
  - exact (IH Hcount).
Qed.

Lemma update_profile_unresolved_witness :
  update_profile Sample.make_password Sample.session_auth_hash
                 Sample.authenticate Sample.LOGIN_URL
                 Sample.EditProfileForm_clean
                 (Sample.post_request
                    (User.mk 9 "zed" "Zed" "Zorn" "zed@corp.test" "x" true)
                    [("username", "zed")])
                 9 (Sample.world_of Sample.alice)
  = (Raise Http404,
     mkWorld Sample.database (Sample.session_of Sample.alice) []).
Proof.
  exact (update_profile_unresolved
           Sample.make_password Sample.session_auth_hash Sample.authenticate
           Sample.LOGIN_URL Sample.EditProfileForm_clean
           (Sample.post_request
              (User.mk 9 "zed" "Zed" "Zorn" "zed@corp.test" "x" true)
              [("username", "zed")])
           9 (Sample.world_of Sample.alice)
           (User.mk 9 "zed" "Zed" "Zorn" "zed@corp.test" "x" true)
           eq_refl ltac:(discriminate)).
Defined.

(** ** Editing the profile: partial writes and the account *)

(** X9.  A profile edit whose new username belongs to another account stops
    half way: the Personal Details row is already saved with the new data
    when the account is refused, so the handler raises the integrity error
    with the accounts and the session unchanged and no message, and the two
    records of the caller no longer agree. *)
Theorem update_profile_partial_write :
  forall make_password session_auth_hash authenticate LOGIN_URL
         EditProfileForm_clean request id w u details cd,
    user request = Some u ->
    method request = "POST" ->
    get_object_or_404
      (personal_details (db w))
      (fun p => String.eqb (PersonalDetails.username p) (User.username u))
    = Ok details ->
    EditProfileForm_clean (db w) details (POST request) = Some cd ->
    username_taken (db w) (ProfileData.username cd) (Some (User.id u))
    = true ->
    update_profile make_password session_auth_hash authenticate LOGIN_URL
                   EditProfileForm_clean request id w
    = (Raise IntegrityError,
       mkWorld (mkDB (users (db w))
                     (save PersonalDetails.id
                           (EditProfileForm_save cd details)
                           (personal_details (db w)))
                     (job_details (db w)) (performances (db w)))
               (session w) []).
Proof.
  intros until cd. intros Hu Hpost Hdetails Hvalid Htaken.
  unfold update_profile, login_required. rewrite Hu. run_handler.
  rewrite Hdetails, Hpost, String.eqb_refl. cbn [db session flash].
  rewrite Hvalid.
  destruct (truthy (ProfileData.new_password cd)); run_handler;
    unfold save_user, save_personal_details, username_taken in *;
    cbn [users User.username User.id]; rewrite Htaken; reflexivity.
Qed.

Lemma update_profile_partial_write_witness :
  update_profile Sample.make_password Sample.session_auth_hash
                 Sample.authenticate Sample.LOGIN_URL
                 Sample.EditProfileForm_clean
                 (Sample.post_request Sample.bob
                    [("first_name", "Bob"); ("last_name", "Baker");
                     ("username", "carol"); ("email", "bob@corp.test");
                     ("new_password", "n-secret")])
                 12 (Sample.world_of Sample.bob)
  = (Raise IntegrityError,
     mkWorld (mkDB (users Sample.database)
                   [Sample.alice_details;
                    PersonalDetails.mk 12 "Bob" "Baker" "carol"
                                       "bob@corp.test" "pbkdf2$b-secret" 22;
                    Sample.carol_details]
                   (job_details Sample.database)
                   (performances Sample.database))
             (Sample.session_of Sample.bob) []).
Proof.
  exact (update_profile_partial_write
           Sample.make_password Sample.session_auth_hash Sample.authenticate
           Sample.LOGIN_URL Sample.EditProfileForm_clean
           (Sample.post_request Sample.bob
              [("first_name", "Bob"); ("last_name", "Baker");
               ("username", "carol"); ("email", "bob@corp.test");
               ("new_password", "n-secret")])
           12 (Sample.world_of Sample.bob) Sample.bob Sample.bob_details
           (ProfileData.mk "Bob" "Baker" "carol" "bob@corp.test" "n-secret")
           eq_refl eq_refl eq_refl eq_refl eq_refl).
Defined.

(** X10.  What a profile edit changes on the account: only username, email
    and, when one is supplied, the password.  After a successful edit the
    stored account of the caller's key has the first name, the last name
    and the active flag of the session user, whatever names were submitted,
    and without a new password also the session user's password hash. *)
Theorem update_profile_account_fields :
  forall make_password session_auth_hash authenticate LOGIN_URL
         EditProfileForm_clean request id w u details cd response w',
    user request = Some u ->
    method request = "POST" ->
    get_object_or_404
      (personal_details (db w))
      (fun p => String.eqb (PersonalDetails.username p) (User.username u))
    = Ok details ->
    EditProfileForm_clean (db w) details (POST request) = Some cd ->
    update_profile make_password session_auth_hash authenticate LOGIN_URL
                   EditProfileForm_clean request id w
    = (Ok response, w') ->
    forall a,
      In a (users (db w')) -> User.id a = User.id u ->
      User.first_name a = User.first_name u
      /\ User.last_name a = User.last_name u
      /\ User.is_active a = User.is_active u
      /\ (ProfileData.new_password cd = "" ->
          User.password a = User.password u)
      /\ (ProfileData.new_password cd <> "" ->
          User.password a = make_password (ProfileData.new_password cd)).
Proof.
  intros until w'. intros Hu Hpost Hdetails Hvalid Hrun a Ha Hk.
  destruct (save_user
              (User.mk (User.id u) (ProfileData.username cd)
                       (User.first_name u) (User.last_name u)
                       (ProfileData.email cd)
                       (if truthy (ProfileData.new_password cd)
                        then make_password (ProfileData.new_password cd)
                        else User.password u)
                       (User.is_active u))
              (save_personal_details (EditProfileForm_save cd details)
                                     (db w))) as [d'|e] eqn:Hsave.
  - rewrite (update_profile_saved make_password session_auth_hash
               authenticate LOGIN_URL EditProfileForm_clean request id w u
               details cd Hu Hpost Hdetails Hvalid d' Hsave) in Hrun.
    injection Hrun as _ <-. cbn [db] in Ha.
    apply save_user_Ok in Hsave. destruct Hsave as [_ ->].
    cbn [users] in Ha.
    apply (in_save_same User.id) in Ha; [|exact Hk]. subst a.
    cbn [User.first_name User.last_name User.is_active User.password].
    repeat split.
    + intros Hnone. now rewrite Hnone.
    + intros Hnew. unfold truthy. apply String.eqb_neq in Hnew.
      now rewrite Hnew.
  - pose proof (update_profile_refused make_password session_auth_hash
                  authenticate LOGIN_URL EditProfileForm_clean request id w u
                  details cd Hu Hpost Hdetails Hvalid e Hsave) as Hraise.
    rewrite Hrun in Hraise. discriminate Hraise.
Qed.

Lemma update_profile_account_fields_witness :
  User.first_name
    (User.mk 2 "rob" "Bob" "Baker" "bob@new.test" "pbkdf2$b-secret" true)
  = User.first_name Sample.bob
  /\ User.last_name
       (User.mk 2 "rob" "Bob" "Baker" "bob@new.test" "pbkdf2$b-secret" true)
     = User.last_name Sample.bob
  /\ User.is_active
       (User.mk 2 "rob" "Bob" "Baker" "bob@new.test" "pbkdf2$b-secret" true)
     = User.is_active Sample.bob.
Proof.
  destruct (update_profile_account_fields
              Sample.make_password Sample.session_auth_hash
              Sample.authenticate Sample.LOGIN_URL
              Sample.EditProfileForm_clean
              (Sample.post_request Sample.bob
                 [("first_name", "Robert"); ("last_name", "Baker");
                  ("username", "rob"); ("email", "bob@new.test")])
              12 (Sample.world_of Sample.bob) Sample.bob
              Sample.bob_details
              (ProfileData.mk "Robert" "Baker" "rob" "bob@new.test" "")
              _ _ eq_refl eq_refl eq_refl eq_refl eq_refl
              (User.mk 2 "rob" "Bob" "Baker" "bob@new.test" "pbkdf2$b-secret"
                       true)
              ltac:(right; left; reflexivity) eq_refl)
    as (Hfirst & Hlast & Hactive & _).
  repeat split; assumption.
Defined.

(** The accounts after a saved profile edit: the caller's account is the
    only row of its key and the only row of its username. *)
Lemma saved_account_lookups (a : User.t) (d d' : DB) :
  NoDup (map User.id (users d)) ->
  save_user a d = Ok d' ->
  get (users d') (fun x => User.id x =? User.id a) = Ok a
  /\ get (users d') (fun x => String.eqb (User.username x) (User.username a))
     = Ok a.
Proof.
  intros Hkeys Hsave. apply save_user_Ok in Hsave.
  destruct Hsave as [Hfree ->]. cbn [users]. unfold get. split.
  - rewrite (filter_save User.id (fun x => User.id x =? User.id a) a);
      [reflexivity|assumption|apply Z.eqb_refl|].
    intros x _ Hk. now apply Z.eqb_neq.
  - rewrite (filter_save User.id
               (fun x => String.eqb (User.username x) (User.username a)) a);
      [reflexivity|assumption|apply String.eqb_refl|].
    intros x Hx Hk. exact (username_taken_other _ _ _ Hfree x Hx Hk).
Qed.

(** X11.  After a successful password change the default backend accepts,
    for the caller's new username, exactly the passwords that check against
    the new hash: the account's former hash plays no part any more, so a
    former password that does not check against the new hash is refused. *)
Theorem password_change_replaces_credentials :
  forall make_password check_password session_auth_hash authenticate
         LOGIN_URL EditProfileForm_clean request id w u details cd response
         w',
    NoDup (map User.id (users (db w))) ->
    user request = Some u ->
    User.is_active u = true ->
    method request = "POST" ->
    get_object_or_404
      (personal_details (db w))
      (fun p => String.eqb (PersonalDetails.username p) (User.username u))
    = Ok details ->
    EditProfileForm_clean (db w) details (POST request) = Some cd ->
    ProfileData.new_password cd <> "" ->
    update_profile make_password session_auth_hash authenticate LOGIN_URL
                   EditProfileForm_clean request id w
    = (Ok response, w') ->
    forall raw,
      ModelBackend_authenticate check_password (db w')
                                (ProfileData.username cd) raw
      = if check_password raw (make_password (ProfileData.new_password cd))
        then Some (User.mk (User.id u) (ProfileData.username cd)
                           (User.first_name u) (User.last_name u)
                           (ProfileData.email cd)
                           (make_password (ProfileData.new_password cd))
                           (User.is_active u))
        else None.
Proof.
  intros until w'.
  intros Hkeys Hu Hactive Hpost Hdetails Hvalid Hnew Hrun raw.
  assert (Htruthy : truthy (ProfileData.new_password cd) = true).
  { unfold truthy. apply negb_true_iff. now apply String.eqb_neq. }
  destruct (save_user
              (User.mk (User.id u) (ProfileData.username cd)
                       (User.first_name u) (User.last_name u)
                       (ProfileData.email cd)
                       (if truthy (ProfileData.new_password cd)
                        then make_password (ProfileData.new_password cd)
                        else User.password u)
                       (User.is_active u))
              (save_personal_details (EditProfileForm_save cd details)
                                     (db w))) as [d'|e] eqn:Hsave.
  - rewrite (update_profile_saved make_password session_auth_hash
               authenticate LOGIN_URL EditProfileForm_clean request id w u
               details cd Hu Hpost Hdetails Hvalid d' Hsave) in Hrun.
    injection Hrun as _ <-. cbn [db].
    rewrite Htruthy in Hsave.
    destruct ((fun H => saved_account_lookups _ _ _ H Hsave) Hkeys)
      as [_ Hname].
    cbn [User.username] in Hname.
    unfold ModelBackend_authenticate. rewrite Hname.
    cbn [User.password User.is_active]. rewrite Hactive.
    now rewrite andb_true_r.
  - pose proof (update_profile_refused make_password session_auth_hash
                  authenticate LOGIN_URL EditProfileForm_clean request id w u
                  details cd Hu Hpost Hdetails Hvalid e Hsave) as Hraise.
    rewrite Hrun in Hraise. discriminate Hraise.
Qed.

Lemma password_change_replaces_credentials_witness :
  ModelBackend_authenticate
    Sample.check_password
    (db (snd (update_profile
                Sample.make_password Sample.session_auth_hash
                Sample.authenticate Sample.LOGIN_URL
                Sample.EditProfileForm_clean
                (Sample.post_request Sample.bob
                   [("first_name", "Robert"); ("last_name", "Baker");
                    ("username", "rob"); ("email", "bob@new.test");
                    ("new_password", "n-secret")])
                12 (Sample.world_of Sample.bob))))
    "rob" "b-secret"
  = None.
Proof.
  exact (password_change_replaces_credentials
           Sample.make_password Sample.check_password
           Sample.session_auth_hash Sample.authenticate Sample.LOGIN_URL
           Sample.EditProfileForm_clean
           (Sample.post_request Sample.bob
              [("first_name", "Robert"); ("last_name", "Baker");
               ("username", "rob"); ("email", "bob@new.test");
               ("new_password", "n-secret")])
           12 (Sample.world_of Sample.bob) Sample.bob Sample.bob_details
           (ProfileData.mk "Robert" "Baker" "rob" "bob@new.test" "n-secret")
           _ _ sample_user_keys eq_refl eq_refl eq_refl eq_refl eq_refl
           ltac:(discriminate) eq_refl "b-secret").
Defined.

(** X12.  What ignoring a failed re-authentication costs.  When the password
    was changed, the re-authentication returned no user and the session was
    the caller's with the fingerprint of the former hash, the session the
    handler leaves behind is no longer valid: the success page is the
    caller's last page before a new login. *)
Theorem failed_reauthentication_ends_session :
  forall make_password session_auth_hash authenticate LOGIN_URL
         EditProfileForm_clean request id w u details cd d',
    NoDup (map User.id (users (db w))) ->
    user request = Some u ->
    method request = "POST" ->
    get_object_or_404
      (personal_details (db w))
      (fun p => String.eqb (PersonalDetails.username p) (User.username u))
    = Ok details ->
    EditProfileForm_clean (db w) details (POST request) = Some cd ->
    ProfileData.new_password cd <> "" ->
    save_user
      (User.mk (User.id u) (ProfileData.username cd) (User.first_name u)
               (User.last_name u) (ProfileData.email cd)
               (make_password (ProfileData.new_password cd))
               (User.is_active u))
      (save_personal_details (EditProfileForm_save cd details) (db w))
    = Ok d' ->
    authenticate d' (ProfileData.username cd) (ProfileData.new_password cd)
    = None ->
    auth_user_id (session w) = Some (User.id u) ->
    auth_user_hash (session w)
    <> session_auth_hash (make_password (ProfileData.new_password cd)) ->
    let w' := snd (update_profile make_password session_auth_hash
                                  authenticate LOGIN_URL
                                  EditProfileForm_clean request id w) in
    session w' = session w
    /\ session_valid session_auth_hash (db w') (session w') = false.
Proof.
  intros until d'.
  intros Hkeys Hu Hpost Hdetails Hvalid Hnew Hsave Hauth Hid Hhash. cbv zeta.
  assert (Htruthy : truthy (ProfileData.new_password cd) = true).
  { unfold truthy. apply negb_true_iff. now apply String.eqb_neq. }
  rewrite (update_profile_saved make_password session_auth_hash authenticate
             LOGIN_URL EditProfileForm_clean request id w u details cd
             Hu Hpost Hdetails Hvalid d')
    by now rewrite Htruthy.
  cbn [snd db session]. rewrite Htruthy, Hauth. split; [reflexivity|].
  unfold session_valid. rewrite Hid.
  destruct ((fun H => saved_account_lookups _ _ _ H Hsave) Hkeys)
    as [Hkey _].
  cbn [User.id] in Hkey. rewrite Hkey. cbn [User.password].
  apply String.eqb_neq in Hhash. rewrite Hhash. apply andb_false_r.
Qed.

Lemma failed_reauthentication_ends_session_witness :
  session_valid
    Sample.session_auth_hash
    (db (snd (update_profile
                Sample.make_password Sample.session_auth_hash
                Sample.remote_authenticate Sample.LOGIN_URL
                Sample.EditProfileForm_clean
                (Sample.post_request Sample.bob
                   [("first_name", "Robert"); ("last_name", "Baker");
                    ("username", "bob"); ("email", "bob@new.test");
                    ("new_password", "n-secret")])
                12 (Sample.world_of Sample.bob))))
    (session (snd (update_profile
                     Sample.make_password Sample.session_auth_hash
                     Sample.remote_authenticate Sample.LOGIN_URL
                     Sample.EditProfileForm_clean
                     (Sample.post_request Sample.bob
                        [("first_name", "Robert"); ("last_name", "Baker");
                         ("username", "bob"); ("email", "bob@new.test");
                         ("new_password", "n-secret")])
                     12 (Sample.world_of Sample.bob))))
  = false.
Proof.
  exact (proj2 (failed_reauthentication_ends_session
                  Sample.make_password Sample.session_auth_hash
                  Sample.remote_authenticate Sample.LOGIN_URL
                  Sample.EditProfileForm_clean
                  (Sample.post_request Sample.bob
                     [("first_name", "Robert"); ("last_name", "Baker");
                      ("username", "bob"); ("email", "bob@new.test");
                      ("new_password", "n-secret")])
                  12 (Sample.world_of Sample.bob) Sample.bob
                  Sample.bob_details
                  (ProfileData.mk "Robert" "Baker" "bob" "bob@new.test"
                                  "n-secret")
                  _ sample_user_keys eq_refl eq_refl eq_refl eq_refl
                  ltac:(discriminate) eq_refl eq_refl eq_refl
                  ltac:(discriminate))).
Defined.

(** ** The employee list *)

Lemma truthy_lower (s : string) : truthy (lower s) = truthy s.
Proof. now destruct s. Qed.

(** X13.  The search is insensitive to the case of the query as well as of
    the fields: two list requests of the same user whose search queries
    differ only in the case of ASCII letters get the same answer. *)
Theorem employees_list_query_case :
  forall LOGIN_URL has_manager_role manager_denied request1 request2 w,
    user request1 = user request2 ->
    lower (dict_get (GET request1) "search" "")
    = lower (dict_get (GET request2) "search" "") ->
    employees_list LOGIN_URL has_manager_role manager_denied request1 w
    = employees_list LOGIN_URL has_manager_role manager_denied request2 w.
Proof.
  intros LOGIN_URL has_manager_role manager_denied request1 request2 w
         Hu Hlower.
  assert (Htruthy : truthy (dict_get (GET request1) "search" "")
                    = truthy (dict_get (GET request2) "search" "")).
  { rewrite <- (truthy_lower (dict_get (GET request1) "search" "")),
            <- (truthy_lower (dict_get (GET request2) "search" "")).
    now rewrite Hlower. }
  unfold employees_list, login_required, icontains.
  rewrite Hu, Htruthy, Hlower. reflexivity.
Qed.

Lemma employees_list_query_case_witness :
  employees_list Sample.LOGIN_URL Sample.has_manager_role
                 Sample.manager_denied
                 (Sample.get_request Sample.bob [("search", "SAL")])
                 (Sample.world_of Sample.bob)
  = employees_list Sample.LOGIN_URL Sample.has_manager_role
                   Sample.manager_denied
                   (Sample.get_request Sample.bob [("search", "sal")])
                   (Sample.world_of Sample.bob).
Proof.
  exact (employees_list_query_case
           Sample.LOGIN_URL Sample.has_manager_role Sample.manager_denied
           (Sample.get_request Sample.bob [("search", "SAL")])
           (Sample.get_request Sample.bob [("search", "sal")])
           (Sample.world_of Sample.bob) eq_refl eq_refl).
Defined.

(** ** Editing and deleting an employee: what is not written *)

Lemma allowed_target (target_job self_job_details : JobDetails.t) :
  (JobDetails.role target_job = "ADM" ->
   JobDetails.role self_job_details = "ADM") ->
  String.eqb (JobDetails.role target_job) "ADM"
  && negb (String.eqb (JobDetails.role self_job_details) "ADM")
  = false.
Proof.
  intros Hauth.
  destruct (String.eqb (JobDetails.role target_job) "ADM") eqn:E;
    [|reflexivity].
  apply String.eqb_eq in E. apply Hauth in E.
  apply String.eqb_eq in E. now rewrite E.
Qed.

(** X14.  The employee form without valid data.  For an authorized manager,
    a request that is not a POST gets the form of the target's Job Details,
    pre-filled with the review date, rating and comments of the linked
    Performance, or with nothing when no Performance is linked; a POST that
    the form rejects gets the form back with one error message.  Neither
    writes to the database or the session. *)
Theorem update_employee_without_valid_data :
  forall LOGIN_URL has_manager_role manager_denied EditEmployeeForm_clean
         request emp_id w caller self_job_details target_details target_job
         target_performance,
    user request = Some caller ->
    has_manager_role (db w) caller = true ->
    get_job_details_by_username (db w) (User.username caller)
      = Ok self_job_details ->
    get_object_or_404 (personal_details (db w))
                      (fun p => PersonalDetails.job_details p =? emp_id)
      = Ok target_details ->
    get_object_or_404 (job_details (db w))
                      (fun j => JobDetails.id j =? emp_id)
      = Ok target_job ->
    related_performance (db w) target_job = Ok target_performance ->
    (JobDetails.role target_job = "ADM" ->
     JobDetails.role self_job_details = "ADM") ->
    (method request <> "POST" ->
     update_employee LOGIN_URL has_manager_role manager_denied
                     EditEmployeeForm_clean request emp_id w
     = (Ok (Render "main/edit-employee.html"
                   (EditEmployeeContext
                      (Unbound
                         (target_job,
                          match target_performance with
                          | Some x =>
                              mkInitial (Performance.review_date x)
                                        (Performance.rating x)
                                        (Performance.comments x)
                          | None => mkInitial None None None
                          end))
                      (PersonalDetails.first_name target_details)
                      (PersonalDetails.last_name target_details) emp_id)),
        mkWorld (db w) (session w) []))
    /\ (method request = "POST" ->
        EditEmployeeForm_clean (db w) target_job (POST request) = None ->
        update_employee LOGIN_URL has_manager_role manager_denied
                        EditEmployeeForm_clean request emp_id w
        = (Ok (Render "main/edit-employee.html"
                      (EditEmployeeContext
                         (Bound (target_job, mkInitial None None None)
                                (POST request) None)
                         (PersonalDetails.first_name target_details)
                         (PersonalDetails.last_name target_details) emp_id)),
           mkWorld (db w) (session w)
                   [mkMessage ERROR
                              "There was an error with your submission."])).
Proof.
  intros until target_performance.
  intros Hu Hm Hs Hpd Hjd Hperf Hauth.
  pose proof (allowed_target _ _ Hauth) as Hallowed.
  unfold update_employee, login_required, manager_required.
  rewrite Hu, Hm. run_handler.
  rewrite Hs, Hpd, Hjd, Hperf, Hallowed. split.
  - intros Hget. apply String.eqb_neq in Hget. now rewrite Hget.
  - intros Hpost Hinvalid. rewrite Hpost, String.eqb_refl.
    cbn [db session flash]. now rewrite Hinvalid.
Qed.

Lemma update_employee_without_valid_data_witness :
  update_employee Sample.LOGIN_URL Sample.has_manager_role
                  Sample.manager_denied Sample.EditEmployeeForm_clean
                  (Sample.get_request Sample.bob []) 23
                  (Sample.world_of Sample.bob)
  = (Ok (Render "main/edit-employee.html"
                (EditEmployeeContext
                   (Unbound (Sample.carol_job,
                             mkInitial (Some (mkDate 2023 11 2)) (Some 3)
                                       (Some "steady")))
                   "Carol" "Cole" 23)),
     mkWorld Sample.database (Sample.session_of Sample.bob) []).
Proof.
  exact (proj1 (update_employee_without_valid_data
                  Sample.LOGIN_URL Sample.has_manager_role
                  Sample.manager_denied Sample.EditEmployeeForm_clean
                  (Sample.get_request Sample.bob []) 23
                  (Sample.world_of Sample.bob) Sample.bob Sample.bob_job
                  Sample.carol_details Sample.carol_job
                  (Some (Performance.mk 33 (Some (mkDate 2023 11 2)) (Some 3)
                                        (Some "steady")))
                  eq_refl eq_refl eq_refl eq_refl eq_refl eq_refl
                  ltac:(intros H; discriminate H))
               ltac:(discriminate)).
Defined.

(** X15.  An employee id that no Job Details row carries: for a manager
    whose own records resolve, the edit handler and the delete handler both
    raise the not-found error, for any method, and write nothing (at most
    one Personal Details row may refer to the id). *)
Theorem unknown_employee_is_not_found :
  forall LOGIN_URL has_manager_role manager_denied EditEmployeeForm_clean
         DEPARTMENT_CHOICES request emp_id w caller self_job_details,
    user request = Some caller ->
    has_manager_role (db w) caller = true ->
    get_job_details_by_username (db w) (User.username caller)
      = Ok self_job_details ->
    (forall j, In j (job_details (db w)) -> JobDetails.id j <> emp_id) ->
    (List.length
       (filter (fun p => (PersonalDetails.job_details p =? emp_id)%Z)
               (personal_details (db w))) <= 1)%nat ->
    update_employee LOGIN_URL has_manager_role manager_denied
                    EditEmployeeForm_clean request emp_id w
    = (Raise Http404, mkWorld (db w) (session w) [])
    /\ delete_employee LOGIN_URL has_manager_role manager_denied
                       DEPARTMENT_CHOICES request emp_id w
       = (Raise Http404, mkWorld (db w) (session w) []).
Proof.
  intros until self_job_details. intros Hu Hm Hs Hnone Hone.
  assert (Hjd : get_object_or_404 (job_details (db w))
                                  (fun j => JobDetails.id j =? emp_id)
                = Raise Http404).
  { apply get_object_or_404_none. intros j Hj.
    apply Z.eqb_neq. now apply Hnone. }
  unfold update_employee, delete_employee, login_required, manager_required.
  rewrite Hu, Hm. run_handler. rewrite Hs, Hjd.
  unfold get_object_or_404 at 1 2, get.
  destruct (filter _ (personal_details (db w))) as [|p [|q rest]];
    [split; reflexivity|split; reflexivity|].
  cbn [List.length] in Hone. lia.
Qed.

Lemma unknown_employee_is_not_found_witness :
  update_employee Sample.LOGIN_URL Sample.has_manager_role
                  Sample.manager_denied Sample.EditEmployeeForm_clean
                  (Sample.post_request Sample.alice [("role", "EMP")]) 99
                  (Sample.world_of Sample.alice)
  = (Raise Http404,
     mkWorld Sample.database (Sample.session_of Sample.alice) [])
  /\ delete_employee Sample.LOGIN_URL Sample.has_manager_role
                     Sample.manager_denied Sample.DEPARTMENT_CHOICES
                     (Sample.post_request Sample.alice [("role", "EMP")]) 99
                     (Sample.world_of Sample.alice)
     = (Raise Http404,
        mkWorld Sample.database (Sample.session_of Sample.alice) []).
Proof.
  apply (unknown_employee_is_not_found
           Sample.LOGIN_URL Sample.has_manager_role Sample.manager_denied
           Sample.EditEmployeeForm_clean Sample.DEPARTMENT_CHOICES
           (Sample.post_request Sample.alice [("role", "EMP")]) 99
           (Sample.world_of Sample.alice) Sample.alice Sample.alice_job
           eq_refl eq_refl eq_refl).
  - intros j [<-|[<-|[<-|[]]]]; discriminate.
  - cbn. lia.
Defined.

(** ** Deleting an employee *)

Section DeleteEmployee.
Variable LOGIN_URL : string.
Variable has_manager_role : DB -> User.t -> bool.
Variable manager_denied : Response.
Variable DEPARTMENT_CHOICES : list (string * string).
Variable request : Request.
Variable emp_id : Z.
Variable w : World.
Variable caller : User.t.
Variable self_job_details : JobDetails.t.
Variable target_details : PersonalDetails.t.
Variable target_job : JobDetails.t.
Hypothesis Hcaller : user request = Some caller.
Hypothesis Hmanager : has_manager_role (db w) caller = true.
Hypothesis Hself :
  get_job_details_by_username (db w) (User.username caller)
  = Ok self_job_details.
Hypothesis Htarget_details :
  get_object_or_404 (personal_details (db w))
                    (fun p => PersonalDetails.job_details p =? emp_id)
  = Ok target_details.
Hypothesis Htarget_job :
  get_object_or_404 (job_details (db w)) (fun j => JobDetails.id j =? emp_id)
  = Ok target_job.
Hypothesis Hallowed :
  JobDetails.role target_job = "ADM" ->
  JobDetails.role self_job_details = "ADM".

(** The handler past its guards: what is left is the method and, for a
    POST, the lookup of the account. *)
Lemma delete_employee_past_guards :
  delete_employee LOGIN_URL has_manager_role manager_denied
                  DEPARTMENT_CHOICES request emp_id w
  = if String.eqb (method request) "POST" then
      match get_object_or_404
              (users (db w))
              (fun a => String.eqb (User.username a)
                                   (PersonalDetails.username target_details))
      with
      | Ok account =>
          (Ok (Redirect "main:list"),
           mkWorld (delete_personal_details target_details
                                            (delete_user account (db w)))
                   (session w)
                   [mkMessage SUCCESS "Employee deleted successfully."])
      | Raise e => (Raise e, mkWorld (db w) (session w) [])
      end
    else
      (Ok (Render "main/confirm-delete.html"
                  (ConfirmDeleteContext
                     (String.append
                        (PersonalDetails.first_name target_details)
                        (String.append
                           " " (PersonalDetails.last_name target_details)))
                     (dict_get DEPARTMENT_CHOICES
                               (JobDetails.department target_job)
                               (JobDetails.department target_job)))),
       mkWorld (db w) (session w) []).
Proof.
  unfold delete_employee, login_required, manager_required.
  rewrite Hcaller, Hmanager. run_handler.
  rewrite Hself, Htarget_details, Htarget_job, (allowed_target _ _ Hallowed).
  destruct (String.eqb (method request) "POST"); [|reflexivity].
  cbn [db session flash].
  destruct (get_object_or_404 (users (db w)) _); reflexivity.
Qed.

End DeleteEmployee.



(** X16.  A confirmed delete whose target has no account of its username
    deletes nothing: the not-found error is raised before the first delete,
    so the Personal Details, Job Details and Performance rows stay. *)
Theorem delete_employee_without_account :
  forall LOGIN_URL has_manager_role manager_denied DEPARTMENT_CHOICES
         request emp_id w caller self_job_details target_details target_job,
    user request = Some caller ->
    has_manager_role (db w) caller = true ->
    get_job_details_by_username (db w) (User.username caller)
      = Ok self_job_details ->
    get_object_or_404 (personal_details (db w))
                      (fun p => PersonalDetails.job_details p =? emp_id)
      = Ok target_details ->
    get_object_or_404 (job_details (db w))
                      (fun j => JobDetails.id j =? emp_id)
      = Ok target_job ->
    (JobDetails.role target_job = "ADM" ->
     JobDetails.role self_job_details = "ADM") ->
    method request = "POST" ->
    (forall a, In a (users (db w)) ->
               User.username a <> PersonalDetails.username target_details) ->
    delete_employee LOGIN_URL has_manager_role manager_denied
                    DEPARTMENT_CHOICES request emp_id w
    = (Raise Http404, mkWorld (db w) (session w) []).
Proof.
  intros until target_job.
  intros Hu Hm Hs Hpd Hjd Hauth Hpost Hnone.
  rewrite (delete_employee_past_guards _ _ _ _ _ _ _ _ _ _ _
             Hu Hm Hs Hpd Hjd Hauth).
  rewrite Hpost, String.eqb_refl.
  rewrite get_object_or_404_none; [reflexivity|].
  intros a Ha. apply String.eqb_neq. now apply Hnone.
Qed.

Lemma delete_employee_without_account_witness :
  delete_employee Sample.LOGIN_URL Sample.has_manager_role
                  Sample.manager_denied Sample.DEPARTMENT_CHOICES
                  (Sample.post_request Sample.bob []) 23
                  (mkWorld (mkDB [Sample.alice; Sample.bob]
                                 (personal_details Sample.database)
                                 (job_details Sample.database)
                                 (performances Sample.database))
                           (Sample.session_of Sample.bob) [])
  = (Raise Http404,
     mkWorld (mkDB [Sample.alice; Sample.bob]
                   (personal_details Sample.database)
                   (job_details Sample.database)
                   (performances Sample.database))
             (Sample.session_of Sample.bob) []).
Proof.
  apply (delete_employee_without_account
           Sample.LOGIN_URL Sample.has_manager_role Sample.manager_denied
           Sample.DEPARTMENT_CHOICES (Sample.post_request Sample.bob []) 23
           (mkWorld (mkDB [Sample.alice; Sample.bob]
                          (personal_details Sample.database)
                          (job_details Sample.database)
                          (performances Sample.database))
                    (Sample.session_of Sample.bob) [])
           Sample.bob Sample.bob_job Sample.carol_details Sample.carol_job
           eq_refl eq_refl eq_refl eq_refl eq_refl
           ltac:(intros H; discriminate H) eq_refl).
  intros a [<-|[<-|[]]]; discriminate.
Defined.



(** X18.  A confirmed delete removes the target and nothing else.  After it,
    the accounts are those of before without the account of the target's
    username, the Personal Details those of before without the target's
    row, the Job Details those of before without the row of the id, and the
    Performances those of before without the one the target's Job Details
    linked; no row is added or changed. *)
Theorem delete_employee_spares_the_others :
  forall LOGIN_URL has_manager_role manager_denied DEPARTMENT_CHOICES
         request emp_id w caller self_job_details target_details target_job
         account,
    user request = Some caller ->
    has_manager_role (db w) caller = true ->
    get_job_details_by_username (db w) (User.username caller)
      = Ok self_job_details ->
    get_object_or_404 (personal_details (db w))
                      (fun p => PersonalDetails.job_details p =? emp_id)
      = Ok target_details ->
    get_object_or_404 (job_details (db w))
                      (fun j => JobDetails.id j =? emp_id)
      = Ok target_job ->
    (JobDetails.role target_job = "ADM" ->
     JobDetails.role self_job_details = "ADM") ->
    method request = "POST" ->
    get_object_or_404
      (users (db w))
      (fun a => String.eqb (User.username a)
                           (PersonalDetails.username target_details))
      = Ok account ->
    let d' := db (snd (delete_employee LOGIN_URL has_manager_role
                                       manager_denied DEPARTMENT_CHOICES
                                       request emp_id w)) in
    (forall a, In a (users d') <->
               In a (users (db w)) /\ User.id a <> User.id account)
    /\ (forall p, In p (personal_details d') <->
                  In p (personal_details (db w))
                  /\ PersonalDetails.id p <> PersonalDetails.id target_details)
    /\ (forall j, In j (job_details d') <->
                  In j (job_details (db w)) /\ JobDetails.id j <> emp_id)
    /\ (forall x, In x (performances d') <->
                  In x (performances (db w))
                  /\ JobDetails.performance target_job
                     <> Some (Performance.id x)).
Proof.
  intros until account.
  intros Hu Hm Hs Hpd Hjd Hauth Hpost Hacc. cbv zeta.
  rewrite (delete_employee_past_guards _ _ _ _ _ _ _ _ _ _ _
             Hu Hm Hs Hpd Hjd Hauth).
  rewrite Hpost, String.eqb_refl, Hacc. cbn [snd db].
  pose proof (get_object_or_404_Ok _ _ _ Hpd) as Hpd'.
  pose proof (get_object_or_404_Ok _ _ _ Hjd) as Hjd'.
  destruct (filter_singleton _ _ _ Hpd') as [_ Hfk].
  apply Z.eqb_eq in Hfk.
  unfold delete_personal_details, delete_user, cascade_performance_keys.
  cbn [users personal_details job_details performances].
  rewrite Hfk, Hjd'. cbn [flat_map app].
  split; [|split; [|split]].
  - intros a. apply in_delete.
  - intros p. apply in_delete.
  - intros j. apply in_delete.
  - intros x. rewrite filter_In, negb_true_iff.
    destruct (JobDetails.performance target_job) as [k|];
      cbn [app existsb].
    + rewrite orb_false_r, Z.eqb_neq.
      split; intros [Hx Hk]; (split; [assumption|]); congruence.
    + split; intros [Hx _]; (split; [assumption|]);
        [discriminate|reflexivity].
Qed.

Lemma delete_employee_spares_the_others_witness :
  In Sample.bob
     (users (db (snd (delete_employee
                        Sample.LOGIN_URL Sample.has_manager_role
                        Sample.manager_denied Sample.DEPARTMENT_CHOICES
                        (Sample.post_request Sample.bob []) 23
                        (Sample.world_of Sample.bob)))))
  <-> In Sample.bob (users Sample.database)
      /\ User.id Sample.bob <> User.id Sample.carol.
Proof.
  exact (proj1 (delete_employee_spares_the_others
                  Sample.LOGIN_URL Sample.has_manager_role
                  Sample.manager_denied Sample.DEPARTMENT_CHOICES
                  (Sample.post_request Sample.bob []) 23
                  (Sample.world_of Sample.bob) Sample.bob Sample.bob_job
                  Sample.carol_details Sample.carol_job Sample.carol
                  eq_refl eq_refl eq_refl eq_refl eq_refl
                  ltac:(intros H; discriminate H) eq_refl eq_refl)
               Sample.bob).
Defined.

(** X19.  Deleting an employee ends that employee's sessions: after a
    confirmed delete no session of the deleted account is valid.  The
    handler does not refuse the caller's own id, so a manager who confirms
    the delete of his own record is left with an invalid session. *)
Theorem delete_employee_ends_sessions :
  forall session_auth_hash LOGIN_URL has_manager_role manager_denied
         DEPARTMENT_CHOICES request emp_id w caller self_job_details
         target_details target_job account s,
    user request = Some caller ->
    has_manager_role (db w) caller = true ->
    get_job_details_by_username (db w) (User.username caller)
      = Ok self_job_details ->
    get_object_or_404 (personal_details (db w))
                      (fun p => PersonalDetails.job_details p =? emp_id)
      = Ok target_details ->
    get_object_or_404 (job_details (db w))
                      (fun j => JobDetails.id j =? emp_id)
      = Ok target_job ->
    (JobDetails.role target_job = "ADM" ->
     JobDetails.role self_job_details = "ADM") ->
    method request = "POST" ->
    get_object_or_404
      (users (db w))
      (fun a => String.eqb (User.username a)
                           (PersonalDetails.username target_details))
      = Ok account ->
    auth_user_id s = Some (User.id account) ->
    session_valid
      session_auth_hash
      (db (snd (delete_employee LOGIN_URL has_manager_role manager_denied
                                DEPARTMENT_CHOICES request emp_id w)))
      s
    = false.
Proof.
  intros until s.
  intros Hu Hm Hs Hpd Hjd Hauth Hpost Hacc Hsession.
  rewrite (delete_employee_past_guards _ _ _ _ _ _ _ _ _ _ _
             Hu Hm Hs Hpd Hjd Hauth).
  rewrite Hpost, String.eqb_refl, Hacc. cbn [snd db].
  unfold session_valid. rewrite Hsession.
  cbn [users delete_personal_details delete_user].
  rewrite get_none; [reflexivity|].
  intros a Ha. apply in_delete in Ha. destruct Ha as [_ Hk].
  now apply Z.eqb_neq.
Qed.

Lemma delete_employee_ends_sessions_witness :
  session_valid
    Sample.session_auth_hash
    (db (snd (delete_employee
                Sample.LOGIN_URL Sample.has_manager_role
                Sample.manager_denied Sample.DEPARTMENT_CHOICES
                (Sample.post_request Sample.bob []) 22
                (Sample.world_of Sample.bob))))
    (session (Sample.world_of Sample.bob))
  = false.
Proof.
  exact (delete_employee_ends_sessions
           Sample.session_auth_hash Sample.LOGIN_URL Sample.has_manager_role
           Sample.manager_denied Sample.DEPARTMENT_CHOICES
           (Sample.post_request Sample.bob []) 22
           (Sample.world_of Sample.bob) Sample.bob Sample.bob_job
           Sample.bob_details Sample.bob_job Sample.bob
           (session (Sample.world_of Sample.bob))
           eq_refl eq_refl eq_refl eq_refl eq_refl
           ltac:(intros H; discriminate H) eq_refl eq_refl eq_refl).
Defined.

(** ** Editing an employee: footprint and round trip *)

Section SaveFacts.
Context {R : Type}.
Variable pk : R -> Z.

Lemma save_replaces (r : R) (rows : list R) :
  existsb (fun x => pk x =? pk r) rows = true ->
  save pk r rows = map (fun x => if pk x =? pk r then r else x) rows.
Proof. unfold save. now intros ->. Qed.

Lemma existsb_key (r x : R) (rows : list R) :
  In x rows -> pk x = pk r -> existsb (fun y => pk y =? pk r) rows = true.
Proof.
  intros Hx Hk. apply existsb_exists. exists x.
  split; [assumption|now apply Z.eqb_eq].
Qed.

Lemma save_length (r x : R) (rows : list R) :
  In x rows -> pk x = pk r ->
  List.length (save pk r rows) = List.length rows.
Proof.
  intros Hx Hk. rewrite (save_replaces _ _ (existsb_key _ _ _ Hx Hk)).
  apply length_map.
Qed.

(** Saving an instance in place of the only row of its key leaves it the
    only row of that key. *)
Lemma filter_save_found (r r0 : R) (rows : list R) :
  filter (fun x => pk x =? pk r) rows = [r0] ->
  filter (fun x => pk x =? pk r) (save pk r rows) = [r].
Proof.
  intros Hone.
  destruct (filter_singleton _ _ _ Hone) as [Hin Hk].
  apply Z.eqb_eq in Hk.
  rewrite (save_replaces _ _ (existsb_key _ _ _ Hin Hk)).
  assert (Hmap :
    forall l, filter (fun x => pk x =? pk r)
                     (map (fun x => if pk x =? pk r then r else x) l)
              = map (fun _ => r) (filter (fun x => pk x =? pk r) l)).
  { induction l as [|a l IH]; [reflexivity|]. cbn [map filter].
    destruct (pk a =? pk r) eqn:Ea.
    - rewrite Z.eqb_refl. cbn [map]. now rewrite IH.
    - rewrite Ea. exact IH. }
  now rewrite Hmap, Hone.
Qed.

(** Saving an instance does not disturb a selection that it and the rows of
    its key are not part of. *)
Lemma filter_save_other (p : R -> bool) (r : R) (rows : list R) :
  p r = false ->
  (forall x, In x rows -> pk x = pk r -> p x = false) ->
  filter p (save pk r rows) = filter p rows.
Proof.
  intros Hr Hsame. unfold save. destruct (existsb _ rows).
  - induction rows as [|a l IH]; [reflexivity|]. cbn [map filter].
    destruct (pk a =? pk r) eqn:Ea.
    + apply Z.eqb_eq in Ea.
      rewrite Hr, (Hsame a (or_introl eq_refl) Ea).
      apply IH. intros x Hx. apply Hsame. now right.
    + destruct (p a); [f_equal|];
        apply IH; intros x Hx; apply Hsame; now right.
  - rewrite filter_app. cbn [filter]. rewrite Hr. apply app_nil_r.
Qed.

End SaveFacts.

Lemma related_performance_Some (d : DB) (j : JobDetails.t)
  (x : Performance.t) :
  related_performance d j = Ok (Some x) ->
  JobDetails.performance j = Some (Performance.id x)
  /\ filter (fun y => Performance.id y =? Performance.id x) (performances d)
     = [x].
Proof.
  unfold related_performance.
  destruct (JobDetails.performance j) as [k|]; [|discriminate].
  destruct (get (performances d) _) as [y|e] eqn:Hget; [|discriminate].
  intros H. injection H as ->. apply get_Ok_filter in Hget.
  destruct (filter_singleton _ _ _ Hget) as [_ Hk]. apply Z.eqb_eq in Hk.
  subst k. now split.
Qed.

Lemma related_performance_None (d : DB) (j : JobDetails.t) :
  related_performance d j = Ok None -> JobDetails.performance j = None.
Proof.
  unfold related_performance.
  destruct (JobDetails.performance j) as [k|]; [|reflexivity].
  destruct (get (performances d) _); discriminate.
Qed.

(** X20.  What the edit handler can touch.  For every request and every
    outcome, the accounts, the Personal Details and the session are those
    of before, every Job Details row of another id is kept as it is, and no
    Job Details or Performance row is added or removed. *)
Theorem update_employee_footprint :
  forall LOGIN_URL has_manager_role manager_denied EditEmployeeForm_clean
         request emp_id w,
    let w' := snd (update_employee LOGIN_URL has_manager_role manager_denied
                                   EditEmployeeForm_clean request emp_id w) in
    users (db w') = users (db w)
    /\ personal_details (db w') = personal_details (db w)
    /\ session w' = session w
    /\ (forall j, JobDetails.id j <> emp_id ->
                  (In j (job_details (db w')) <-> In j (job_details (db w))))
    /\ List.length (job_details (db w')) = List.length (job_details (db w))
    /\ List.length (performances (db w'))
       = List.length (performances (db w)).
Proof.
  intros LOGIN_URL has_manager_role manager_denied EditEmployeeForm_clean
         request emp_id w. cbv zeta.
  assert (Hsame : forall (r : result Response) (w0 : World),
            db w0 = db w -> session w0 = session w ->
            users (db (snd (r, w0))) = users (db w)
            /\ personal_details (db (snd (r, w0))) = personal_details (db w)
            /\ session (snd (r, w0)) = session w
            /\ (forall j, JobDetails.id j <> emp_id ->
                          (In j (job_details (db (snd (r, w0))))
                           <-> In j (job_details (db w))))
            /\ List.length (job_details (db (snd (r, w0))))
               = List.length (job_details (db w))
            /\ List.length (performances (db (snd (r, w0))))
               = List.length (performances (db w))).
  { intros r w0 Hd Hs. cbn [snd]. rewrite Hd, Hs.
    repeat split; auto. }
  unfold update_employee, login_required, manager_required.
  destruct (user request) as [caller|]; [|now apply Hsame].
  destruct (has_manager_role (db w) caller); [|now apply Hsame].
  run_handler.
  destruct (get_job_details_by_username (db w) _) as [self|e];
    [|now apply Hsame].
  destruct (get_object_or_404 (personal_details (db w)) _) as [pd|e];
    [|now apply Hsame].
  destruct (get_object_or_404 (job_details (db w)) _) as [tj|e] eqn:Hjd;
    [|now apply Hsame].
  destruct (related_performance (db w) tj) as [perf|e] eqn:Hperf;
    [|now apply Hsame].
  destruct (String.eqb (JobDetails.role tj) "ADM" && _);
    [now apply Hsame|].
  destruct (String.eqb (method request) "POST");
    [|now apply Hsame].
  cbn [db session flash].
  destruct (EditEmployeeForm_clean (db w) tj (POST request)) as [cd|];
    [|now apply Hsame].
  apply get_object_or_404_Ok in Hjd.
  destruct (filter_singleton _ _ _ Hjd) as [Htj Hid].
  apply Z.eqb_eq in Hid.
  assert (Hjobs :
    (forall j, JobDetails.id j <> emp_id ->
               (In j (save JobDetails.id (EditEmployeeForm_save cd tj)
                           (job_details (db w)))
                <-> In j (job_details (db w))))
    /\ List.length (save JobDetails.id (EditEmployeeForm_save cd tj)
                         (job_details (db w)))
       = List.length (job_details (db w))).
  { split.
    - intros j Hj. apply in_save_other.
      unfold EditEmployeeForm_save. cbn [JobDetails.id]. congruence.
    - now apply (save_length JobDetails.id _ tj). }
  destruct Hjobs as [Hother Hlen].
  destruct perf as [x|]; cbn [snd db session users personal_details
                               job_details performances save_job_details
                               save_performance];
    repeat split; try assumption; try apply Hother; try assumption.
  apply related_performance_Some in Hperf. destruct Hperf as [_ Hx].
  destruct (filter_singleton _ _ _ Hx) as [Hin _].
  now apply (save_length Performance.id _ x).
Qed.

(** The world a valid edit leaves. *)
Lemma update_employee_run
  LOGIN_URL has_manager_role manager_denied EditEmployeeForm_clean
  request emp_id w caller self_job_details target_details target_job
  target_performance cd :
  user request = Some caller ->
  has_manager_role (db w) caller = true ->
  method request = "POST" ->
  get_job_details_by_username (db w) (User.username caller)
    = Ok self_job_details ->
  get_object_or_404 (personal_details (db w))
                    (fun p => PersonalDetails.job_details p =? emp_id)
    = Ok target_details ->
  get_object_or_404 (job_details (db w)) (fun j => JobDetails.id j =? emp_id)
    = Ok target_job ->
  related_performance (db w) target_job = Ok target_performance ->
  (JobDetails.role target_job = "ADM" ->
   JobDetails.role self_job_details = "ADM") ->
  EditEmployeeForm_clean (db w) target_job (POST request) = Some cd ->
  update_employee LOGIN_URL has_manager_role manager_denied
                  EditEmployeeForm_clean request emp_id w
  = (Ok (Redirect "list"),
     mkWorld
       (mkDB (users (db w)) (personal_details (db w))
             (save JobDetails.id (EditEmployeeForm_save cd target_job)
                   (job_details (db w)))
             (match target_performance with
              | Some x =>
                  save Performance.id
                       (Performance.mk (Performance.id x)
                                       (EmployeeData.review_date cd)
                                       (EmployeeData.rating cd)
                                       (EmployeeData.comments cd))
                       (performances (db w))
              | None => performances (db w)
              end))
       (session w)
       [mkMessage SUCCESS "Profile updated successfully!"]).
Proof.
  intros Hu Hm Hpost Hs Hpd Hjd Hperf Hauth Hvalid.
  unfold update_employee, login_required, manager_required.
  rewrite Hu, Hm. run_handler.
  rewrite Hs, Hpd, Hjd, Hperf, (allowed_target _ _ Hauth), Hpost,
    String.eqb_refl.
  cbn [db session flash]. rewrite Hvalid.
  destruct target_performance; reflexivity.
Qed.

(** The lookups of the handlers in the database a valid edit of another
    employee leaves: the caller's Job Details is the one of before, the
    target's is the saved one, and the linked Performance the saved one. *)
Lemma lookups_after_edit
  (d : DB) (name : string) (emp_id : Z)
  (self_job_details target_job : JobDetails.t)
  (target_performance : option Performance.t) (cd : EmployeeData.t) :
  get_job_details_by_username d name = Ok self_job_details ->
  get_object_or_404 (job_details d) (fun j => JobDetails.id j =? emp_id)
    = Ok target_job ->
  related_performance d target_job = Ok target_performance ->
  JobDetails.id self_job_details <> emp_id ->
  let saved := EditEmployeeForm_save cd target_job in
  let saved_performance x :=
    Performance.mk (Performance.id x) (EmployeeData.review_date cd)
                   (EmployeeData.rating cd) (EmployeeData.comments cd) in
  let d' :=
    mkDB (users d) (personal_details d)
         (save JobDetails.id saved (job_details d))
         (match target_performance with
          | Some x => save Performance.id (saved_performance x)
                           (performances d)
          | None => performances d
          end) in
  JobDetails.id saved = emp_id
  /\ get_job_details_by_username d' name = Ok self_job_details
  /\ get_object_or_404 (job_details d') (fun j => JobDetails.id j =? emp_id)
     = Ok saved
  /\ related_performance d' saved
     = Ok (match target_performance with
           | Some x => Some (saved_performance x)
           | None => None
           end).
Proof.
  intros Hs Hjd Hperf Hother. cbv zeta.
  pose proof (get_object_or_404_Ok _ _ _ Hjd) as Hjd'.
  destruct (filter_singleton _ _ _ Hjd') as [_ Hid].
  apply Z.eqb_eq in Hid.
  set (saved := EditEmployeeForm_save cd target_job) in *.
  assert (Hsaved_id : JobDetails.id saved = emp_id) by exact Hid.
  split; [exact Hsaved_id|]. split; [|split].
  - revert Hs. unfold get_job_details_by_username,
      get_personal_details_by_username. cbn [personal_details].
    destruct (get_object_or_404
                (personal_details d)
                (fun p => String.eqb (PersonalDetails.username p) name))
      as [p|e]; [|discriminate].
    unfold related_job_details. intros Hs.
    pose proof (get_Ok_filter _ _ _ Hs) as Hs'.
    destruct (filter_singleton _ _ _ Hs') as [_ Hself].
    apply Z.eqb_eq in Hself.
    unfold get in *. cbn [job_details].
    rewrite (filter_save_other JobDetails.id); [exact Hs| |].
    + apply Z.eqb_neq. congruence.
    + intros x _ Hx. apply Z.eqb_neq. congruence.
  - unfold get_object_or_404, get. cbn [job_details].
    rewrite <- Hsaved_id.
    rewrite (filter_save_found JobDetails.id _ target_job); [reflexivity|].
    now rewrite Hsaved_id.
  - unfold related_performance.
    cbn [JobDetails.performance saved EditEmployeeForm_save].
    destruct target_performance as [x|].
    + apply related_performance_Some in Hperf.
      destruct Hperf as [-> Hx]. unfold get. cbn [performances].
      change (Performance.id x)
        with (Performance.id
                (Performance.mk (Performance.id x)
                                (EmployeeData.review_date cd)
                                (EmployeeData.rating cd)
                                (EmployeeData.comments cd))) at 1.
      now rewrite (filter_save_found Performance.id _ x).
    + apply related_performance_None in Hperf. now rewrite Hperf.
Qed.

(** X21.  Edit, then look again.  After a valid edit of another employee,
    the same manager's next request for the form of that employee shows what
    was saved: the Job Details with the submitted role and department, and,
    when a Performance is linked, the submitted review date, rating and
    comments as the pre-filled values. *)
Theorem update_employee_then_form :
  forall LOGIN_URL has_manager_role manager_denied EditEmployeeForm_clean
         request next_request emp_id w caller self_job_details
         target_details target_job target_performance cd,
    user request = Some caller ->
    has_manager_role (db w) caller = true ->
    method request = "POST" ->
    get_job_details_by_username (db w) (User.username caller)
      = Ok self_job_details ->
    get_object_or_404 (personal_details (db w))
                      (fun p => PersonalDetails.job_details p =? emp_id)
      = Ok target_details ->
    get_object_or_404 (job_details (db w))
                      (fun j => JobDetails.id j =? emp_id)
      = Ok target_job ->
    related_performance (db w) target_job = Ok target_performance ->
    (JobDetails.role target_job = "ADM" ->
     JobDetails.role self_job_details = "ADM") ->
    EditEmployeeForm_clean (db w) target_job (POST request) = Some cd ->
    let w' := snd (update_employee LOGIN_URL has_manager_role manager_denied
                                   EditEmployeeForm_clean request emp_id w) in
    JobDetails.id self_job_details <> emp_id ->
    (EmployeeData.role cd = "ADM" ->
     JobDetails.role self_job_details = "ADM") ->
    user next_request = Some caller ->
    method next_request <> "POST" ->
    has_manager_role (db w') caller = true ->
    update_employee LOGIN_URL has_manager_role manager_denied
                    EditEmployeeForm_clean next_request emp_id w'
    = (Ok (Render "main/edit-employee.html"
                  (EditEmployeeContext
                     (Unbound
                        (JobDetails.mk emp_id (EmployeeData.role cd)
                                       (EmployeeData.department cd)
                                       (JobDetails.performance target_job),
                         match target_performance with
                         | Some _ =>
                             mkInitial (EmployeeData.review_date cd)
                                       (EmployeeData.rating cd)
                                       (EmployeeData.comments cd)
                         | None => mkInitial None None None
                         end))
                     (PersonalDetails.first_name target_details)
                     (PersonalDetails.last_name target_details) emp_id)),
       mkWorld (db w') (session w') []).
Proof.
  intros until cd.
  intros Hu Hm Hpost Hs Hpd Hjd Hperf Hauth Hvalid. cbv zeta.
  rewrite (update_employee_run _ _ _ _ _ _ _ _ _ _ _ _ _
             Hu Hm Hpost Hs Hpd Hjd Hperf Hauth Hvalid).
  cbn [snd db session]. intros Hother Hrole Hu' Hget Hm'.
  destruct (lookups_after_edit _ _ _ _ _ _ cd Hs Hjd Hperf Hother)
    as (Hid & Hs' & Hjd1 & Hperf1).
  unfold update_employee, login_required, manager_required.
  rewrite Hu'. cbn [db]. rewrite Hm'. run_handler.
  rewrite Hs'. cbn [personal_details].
  rewrite Hpd, Hjd1, Hperf1,
    (allowed_target (EditEmployeeForm_save cd target_job) self_job_details
                    Hrole).
  apply String.eqb_neq in Hget. rewrite Hget.
  unfold EditEmployeeForm_save in *. cbn [JobDetails.id] in Hid.
  rewrite Hid. destruct target_performance; reflexivity.
Qed.

Lemma update_employee_then_form_witness :
  update_employee
    Sample.LOGIN_URL Sample.has_manager_role Sample.manager_denied
    Sample.EditEmployeeForm_clean (Sample.get_request Sample.bob []) 23
    (snd (update_employee
            Sample.LOGIN_URL Sample.has_manager_role Sample.manager_denied
            Sample.EditEmployeeForm_clean
            (Sample.post_request Sample.bob
               [("role", "EMP"); ("department", "IT");
                ("comments", "moved")])
            23 (Sample.world_of Sample.bob)))
  = (Ok (Render "main/edit-employee.html"
                (EditEmployeeContext
                   (Unbound (JobDetails.mk 23 "EMP" "IT" (Some 33),
                             mkInitial (Some (mkDate 2024 5 17)) (Some 4)
                                       (Some "moved")))
                   "Carol" "Cole" 23)),
     mkWorld
       (db (snd (update_employee
                   Sample.LOGIN_URL Sample.has_manager_role
                   Sample.manager_denied Sample.EditEmployeeForm_clean
                   (Sample.post_request Sample.bob
                      [("role", "EMP"); ("department", "IT");
                       ("comments", "moved")])
                   23 (Sample.world_of Sample.bob))))
       (Sample.session_of Sample.bob) []).
Proof.
  exact (update_employee_then_form
           Sample.LOGIN_URL Sample.has_manager_role Sample.manager_denied
           Sample.EditEmployeeForm_clean
           (Sample.post_request Sample.bob
              [("role", "EMP"); ("department", "IT"); ("comments", "moved")])
           (Sample.get_request Sample.bob []) 23
           (Sample.world_of Sample.bob) Sample.bob Sample.bob_job
           Sample.carol_details Sample.carol_job
           (Some (Performance.mk 33 (Some (mkDate 2023 11 2)) (Some 3)
                                 (Some "steady")))
           (EmployeeData.mk "EMP" "IT" (Some (mkDate 2024 5 17)) (Some 4)
                            (Some "moved"))
           eq_refl eq_refl eq_refl eq_refl eq_refl eq_refl eq_refl
           ltac:(intros H; discriminate H) eq_refl
           ltac:(discriminate) ltac:(intros H; discriminate H)
           eq_refl ltac:(discriminate) eq_refl).
Defined.

(** X22.  The guard looks at the stored role, not at the submitted one.  A
    manager who is not an administrator and whose form submission gives
    another employee the role "ADM" has that role saved; from then on the
    same manager's edit and delete requests for that employee are answered
    by the protection of administrators, whatever their method. *)
Theorem promotion_locks_the_manager_out :
  forall LOGIN_URL has_manager_role manager_denied EditEmployeeForm_clean
         DEPARTMENT_CHOICES request next_request emp_id w caller
         self_job_details target_details target_job target_performance cd,
    user request = Some caller ->
    has_manager_role (db w) caller = true ->
    method request = "POST" ->
    get_job_details_by_username (db w) (User.username caller)
      = Ok self_job_details ->
    get_object_or_404 (personal_details (db w))
                      (fun p => PersonalDetails.job_details p =? emp_id)
      = Ok target_details ->
    get_object_or_404 (job_details (db w))
                      (fun j => JobDetails.id j =? emp_id)
      = Ok target_job ->
    related_performance (db w) target_job = Ok target_performance ->
    JobDetails.role self_job_details <> "ADM" ->
    JobDetails.role target_job <> "ADM" ->
    EditEmployeeForm_clean (db w) target_job (POST request) = Some cd ->
    EmployeeData.role cd = "ADM" ->
    let w' := snd (update_employee LOGIN_URL has_manager_role manager_denied
                                   EditEmployeeForm_clean request emp_id w) in
    JobDetails.id self_job_details <> emp_id ->
    user next_request = Some caller ->
    has_manager_role (db w') caller = true ->
    get_object_or_404 (job_details (db w'))
                      (fun j => JobDetails.id j =? emp_id)
    = Ok (JobDetails.mk emp_id "ADM" (EmployeeData.department cd)
                        (JobDetails.performance target_job))
    /\ update_employee LOGIN_URL has_manager_role manager_denied
                       EditEmployeeForm_clean next_request emp_id w'
       = (Ok (Redirect "list"),
          mkWorld (db w') (session w')
                  [mkMessage ERROR "You cannot update an Admin employee."])
    /\ delete_employee LOGIN_URL has_manager_role manager_denied
                       DEPARTMENT_CHOICES next_request emp_id w'
       = (Ok (Redirect "main:list"),
          mkWorld (db w') (session w')
                  [mkMessage ERROR "You cannot delete an Admin employee."]).
Proof.
  intros until cd.
  intros Hu Hm Hpost Hs Hpd Hjd Hperf Hself Htarget Hvalid Hadm. cbv zeta.
  rewrite (update_employee_run _ _ _ _ _ _ _ _ _ _ _ _ _
             Hu Hm Hpost Hs Hpd Hjd Hperf
             ltac:(intros H; contradiction) Hvalid).
  cbn [snd db session]. intros Hother Hu' Hm'.
  destruct (lookups_after_edit _ _ _ _ _ _ cd Hs Hjd Hperf Hother)
    as (Hid & Hs' & Hjd1 & Hperf1).
  unfold EditEmployeeForm_save in *. cbn [JobDetails.id] in Hid.
  rewrite Hid, Hadm in *.
  apply String.eqb_neq in Hself.
  split; [exact Hjd1|]. split.
  - unfold update_employee, login_required, manager_required.
    rewrite Hu'. cbn [db]. rewrite Hm'. run_handler.
    rewrite Hs'. cbn [personal_details].
    rewrite Hpd, Hjd1, Hperf1. cbn [JobDetails.role]. rewrite Hself.
    reflexivity.
  - unfold delete_employee, login_required, manager_required.
    rewrite Hu'. cbn [db]. rewrite Hm'. run_handler.
    rewrite Hs'. cbn [personal_details].
    rewrite Hpd, Hjd1. cbn [JobDetails.role]. rewrite Hself.
    reflexivity.
Qed.

Lemma promotion_locks_the_manager_out_witness :
  update_employee
    Sample.LOGIN_URL Sample.has_manager_role Sample.manager_denied
    Sample.EditEmployeeForm_clean
    (Sample.post_request Sample.bob [("role", "EMP")]) 23
    (snd (update_employee
            Sample.LOGIN_URL Sample.has_manager_role Sample.manager_denied
            Sample.EditEmployeeForm_clean
            (Sample.post_request Sample.bob
               [("role", "ADM"); ("department", "SAL")])
            23 (Sample.world_of Sample.bob)))
  = (Ok (Redirect "list"),
     mkWorld
       (db (snd (update_employee
                   Sample.LOGIN_URL Sample.has_manager_role
                   Sample.manager_denied Sample.EditEmployeeForm_clean
                   (Sample.post_request Sample.bob
                      [("role", "ADM"); ("department", "SAL")])
                   23 (Sample.world_of Sample.bob))))
       (Sample.session_of Sample.bob)
       [mkMessage ERROR "You cannot update an Admin employee."]).
Proof.
  destruct (promotion_locks_the_manager_out
              Sample.LOGIN_URL Sample.has_manager_role Sample.manager_denied
              Sample.EditEmployeeForm_clean Sample.DEPARTMENT_CHOICES
              (Sample.post_request Sample.bob
                 [("role", "ADM"); ("department", "SAL")])
              (Sample.post_request Sample.bob [("role", "EMP")]) 23
              (Sample.world_of Sample.bob) Sample.bob Sample.bob_job
              Sample.carol_details Sample.carol_job
              (Some (Performance.mk 33 (Some (mkDate 2023 11 2)) (Some 3)
                                    (Some "steady")))
              (EmployeeData.mk "ADM" "SAL" (Some (mkDate 2024 5 17)) (Some 4)
                               (Some ""))
              eq_refl eq_refl eq_refl eq_refl eq_refl eq_refl eq_refl
              ltac:(discriminate) ltac:(discriminate) eq_refl eq_refl
              ltac:(discriminate) eq_refl eq_refl)
    as (_ & Hedit & _).
  exact Hedit.
Defined.

(** ** Editing the profile, then viewing it *)

(** X23.  A renamed user keeps the profile.  After a successful profile edit
    the profile page of a session user who carries the submitted username
    shows the saved Personal Details with the Job Details and the
    Performance the row was linked to before, provided the Personal Details
    keys are unique and no other row holds the submitted username. *)
Theorem renamed_user_keeps_profile :
  forall make_password session_auth_hash authenticate LOGIN_URL
         EditProfileForm_clean request next_request id next_id w u details
         job performance cd response w' a,
    NoDup (map PersonalDetails.id (personal_details (db w))) ->
    user request = Some u ->
    method request = "POST" ->
    get_object_or_404
      (personal_details (db w))
      (fun p => String.eqb (PersonalDetails.username p) (User.username u))
    = Ok details ->
    EditProfileForm_clean (db w) details (POST request) = Some cd ->
    related_job_details (db w) details = Ok job ->
    related_performance (db w) job = Ok performance ->
    (forall p, In p (personal_details (db w)) ->
               PersonalDetails.id p <> PersonalDetails.id details ->
               PersonalDetails.username p <> ProfileData.username cd) ->
    update_profile make_password session_auth_hash authenticate LOGIN_URL
                   EditProfileForm_clean request id w
    = (Ok response, w') ->
    user next_request = Some a ->
    User.username a = ProfileData.username cd ->
    get_profile_data LOGIN_URL next_request next_id w'
    = (Ok (Render "main/profile.html"
                  (ProfileContext (EditProfileForm_save cd details) job
                                  performance)),
       w').
Proof.
  intros until a.
  intros Hkeys Hu Hpost Hdetails Hvalid Hjob Hperf Hfree Hrun Hnext Hname.
  destruct (save_user
              (User.mk (User.id u) (ProfileData.username cd)
                       (User.first_name u) (User.last_name u)
                       (ProfileData.email cd)
                       (if truthy (ProfileData.new_password cd)
                        then make_password (ProfileData.new_password cd)
                        else User.password u)
                       (User.is_active u))
              (save_personal_details (EditProfileForm_save cd details)
                                     (db w))) as [d'|e] eqn:Hsave.
  2:{ pose proof (update_profile_refused make_password session_auth_hash
                    authenticate LOGIN_URL EditProfileForm_clean request id w
                    u details cd Hu Hpost Hdetails Hvalid e Hsave) as Hraise.
      rewrite Hrun in Hraise. discriminate Hraise. }
  rewrite (update_profile_saved make_password session_auth_hash
             authenticate LOGIN_URL EditProfileForm_clean request id w u
             details cd Hu Hpost Hdetails Hvalid d' Hsave) in Hrun.
  injection Hrun as _ <-.
  apply save_user_Ok in Hsave. destruct Hsave as [_ ->].
  cbn [users personal_details job_details performances
       save_personal_details].
  set (saved := EditProfileForm_save cd details).
  set (d' := mkDB _ _ _ _).
  assert (Hpd : get_personal_details_by_username d' (ProfileData.username cd)
                = Ok saved).
  { unfold get_personal_details_by_username, get_object_or_404, get.
    cbn [personal_details d'].
    rewrite (filter_save PersonalDetails.id); [reflexivity|assumption| |].
    - apply String.eqb_refl.
    - intros p Hp Hk. apply String.eqb_neq. now apply Hfree. }
  assert (Hjd : get_job_details_by_username d' (ProfileData.username cd)
                = Ok job).
  { unfold get_job_details_by_username. rewrite Hpd. exact Hjob. }
  assert (Hpf : get_performance_by_username d' (ProfileData.username cd)
                = Ok performance).
  { unfold get_performance_by_username. rewrite Hjd. exact Hperf. }
  unfold get_profile_data, login_required. rewrite Hnext, Hname.
  run_handler. now rewrite Hpd, Hjd, Hpf.
Qed.

Lemma sample_details_keys :
  NoDup (map PersonalDetails.id (personal_details Sample.database)).
Proof.
  cbn. repeat constructor; cbn; intros H;
    repeat (destruct H as [H|H]; [discriminate H|]); exact H.
Qed.

Lemma renamed_user_keeps_profile_witness :
  fst (get_profile_data
         Sample.LOGIN_URL
         (Sample.get_request
            (User.mk 2 "rob" "Bob" "Baker" "bob@new.test" "pbkdf2$b-secret"
                     true) [])
         7
         (snd (update_profile
                 Sample.make_password Sample.session_auth_hash
                 Sample.authenticate Sample.LOGIN_URL
                 Sample.EditProfileForm_clean
                 (Sample.post_request Sample.bob
                    [("first_name", "Robert"); ("last_name", "Baker");
                     ("username", "rob"); ("email", "bob@new.test")])
                 12 (Sample.world_of Sample.bob))))
  = Ok (Render "main/profile.html"
               (ProfileContext
                  (PersonalDetails.mk 12 "Robert" "Baker" "rob" "bob@new.test"
                                      "pbkdf2$b-secret" 22)
                  Sample.bob_job (Some (Performance.empty 32)))).
Proof.
  exact (f_equal fst
           (renamed_user_keeps_profile
              Sample.make_password Sample.session_auth_hash
              Sample.authenticate Sample.LOGIN_URL
              Sample.EditProfileForm_clean
              (Sample.post_request Sample.bob
                 [("first_name", "Robert"); ("last_name", "Baker");
                  ("username", "rob"); ("email", "bob@new.test")])
              (Sample.get_request
                 (User.mk 2 "rob" "Bob" "Baker" "bob@new.test"
                          "pbkdf2$b-secret" true) [])
              12 7 (Sample.world_of Sample.bob) Sample.bob Sample.bob_details
              Sample.bob_job (Some (Performance.empty 32))
              (ProfileData.mk "Robert" "Baker" "rob" "bob@new.test" "")
              (Render "main/edit-profile.html"
                      (EditProfileContext
                         (Bound (PersonalDetails.mk 12 "Robert" "Baker" "rob"
                                                    "bob@new.test"
                                                    "pbkdf2$b-secret" 22)
                                [("first_name", "Robert");
                                 ("last_name", "Baker"); ("username", "rob");
                                 ("email", "bob@new.test")]
                                (Some (ProfileData.mk "Robert" "Baker" "rob"
                                                      "bob@new.test" "")))
                         12))
              (snd (update_profile
                      Sample.make_password Sample.session_auth_hash
                      Sample.authenticate Sample.LOGIN_URL
                      Sample.EditProfileForm_clean
                      (Sample.post_request Sample.bob
                         [("first_name", "Robert"); ("last_name", "Baker");
                          ("username", "rob"); ("email", "bob@new.test")])
                      12 (Sample.world_of Sample.bob)))
              (User.mk 2 "rob" "Bob" "Baker" "bob@new.test" "pbkdf2$b-secret"
                       true)
              sample_details_keys eq_refl eq_refl eq_refl eq_refl eq_refl
              eq_refl
              ltac:(intros p [<-|[<-|[<-|[]]]] Hk;
                    try discriminate; now contradiction Hk)
              eq_refl eq_refl eq_refl)).
Defined.
